(** * convert_list_to_json: a list of strings saved as a UTF-8 JSON file

    Shallow embedding of [convert_list_to_json.py].  The script's only
    function opens a file in binary write mode and writes
    [json.dumps(lst, ensure_ascii=False).encode('utf8')] to it; the module
    body builds the list of country names under the [__main__] guard and
    calls the function on its last line.

    The Python runtime pieces the script calls ([json.dumps], [str.encode],
    [open], [write], the [with] statement, name lookup) are modelled here as
    executable definitions; [json.loads] and the strict UTF-8 decoder are
    modelled as well, to state what reading the file back gives. *)

From Stdlib Require Import ZArith Lia List Ascii String.
From stdpp Require Import base numbers option list strings gmap.

Local Open Scope Z_scope.

(** ** Text and bytes

    A Python [str] is a sequence of code points, a [bytes] object a
    sequence of integers below 256. *)

Abbreviation text := (list Z) (only parsing).
Abbreviation bytes := (list Z) (only parsing).

(** The characters the JSON encoder and decoder name. *)
Definition QUOTE : Z := 0x22.
Definition BACKSLASH : Z := 0x5C.
Definition SLASH : Z := 0x2F.
Definition LBRACKET : Z := 0x5B.
Definition RBRACKET : Z := 0x5D.
Definition COMMA : Z := 0x2C.
Definition SPACE : Z := 0x20.
Definition LETTER_u : Z := 0x75.

Module Unicode.

(** A code point that is a surrogate (U+D800..U+DFFF). *)
Definition is_surrogate (c : Z) : bool := (0xD800 <=? c) && (c <=? 0xDFFF).

(** Unicode scalar values: the code points of well-formed text. *)
Definition is_scalar (c : Z) : bool :=
  (0 <=? c) && (c <=? 0x10FFFF) && negb (is_surrogate c).

(** A text value: every code point is a scalar value. *)
Definition is_text (s : text) : bool := forallb is_scalar s.

Definition is_byte (b : Z) : bool := (0 <=? b) && (b <? 256).

(** [str.encode('utf8')] on one code point (of a [str], hence in
    U+0000..U+10FFFF); the strict error handler refuses surrogates. *)
Definition utf8_encode_char (c : Z) : option bytes :=
  if c <? 0x80 then Some [c]
  else if c <? 0x800 then
    Some [Z.lor 0xC0 (Z.shiftr c 6); Z.lor 0x80 (Z.land c 0x3F)]
  else if c <? 0x10000 then
    if is_surrogate c then None
    else Some [Z.lor 0xE0 (Z.shiftr c 12);
               Z.lor 0x80 (Z.land (Z.shiftr c 6) 0x3F);
               Z.lor 0x80 (Z.land c 0x3F)]
  else
    Some [Z.lor 0xF0 (Z.shiftr c 18);
          Z.lor 0x80 (Z.land (Z.shiftr c 12) 0x3F);
          Z.lor 0x80 (Z.land (Z.shiftr c 6) 0x3F);
          Z.lor 0x80 (Z.land c 0x3F)].

(** [s.encode('utf8')]: [None] stands for [UnicodeEncodeError]. *)
Fixpoint utf8_encode (s : text) : option bytes :=
  match s with
  | [] => Some []
  | c :: rest =>
      match utf8_encode_char c, utf8_encode rest with
      | Some bs, Some bs' => Some (bs ++ bs')
      | _, _ => None
      end
  end.

Definition is_cont (b : Z) : bool := (0x80 <=? b) && (b <=? 0xBF).

(** [b.decode('utf8')], strict: truncated, overlong, surrogate and
    out-of-range sequences are refused ([None] stands for
    [UnicodeDecodeError]). *)
Fixpoint utf8_decode (bs : bytes) : option text :=
  match bs with
  | [] => Some []
  | b0 :: bs1 =>
      if (0 <=? b0) && (b0 <? 0x80) then cons b0 <$> utf8_decode bs1
      else if (0xC2 <=? b0) && (b0 <=? 0xDF) then
        match bs1 with
        | b1 :: bs2 =>
            if is_cont b1 then
              cons (Z.lor (Z.shiftl (Z.land b0 0x1F) 6) (Z.land b1 0x3F))
                <$> utf8_decode bs2
            else None
        | _ => None
        end
      else if (0xE0 <=? b0) && (b0 <=? 0xEF) then
        match bs1 with
        | b1 :: b2 :: bs3 =>
            let c := Z.lor (Z.shiftl (Z.land b0 0x0F) 12)
                       (Z.lor (Z.shiftl (Z.land b1 0x3F) 6) (Z.land b2 0x3F)) in
            if is_cont b1 && is_cont b2 && (0x800 <=? c) && negb (is_surrogate c)
            then cons c <$> utf8_decode bs3
            else None
        | _ => None
        end
      else if (0xF0 <=? b0) && (b0 <=? 0xF4) then
        match bs1 with
        | b1 :: b2 :: b3 :: bs4 =>
            let c := Z.lor (Z.shiftl (Z.land b0 0x07) 18)
                       (Z.lor (Z.shiftl (Z.land b1 0x3F) 12)
                          (Z.lor (Z.shiftl (Z.land b2 0x3F) 6) (Z.land b3 0x3F))) in
            if is_cont b1 && is_cont b2 && is_cont b3
               && (0x10000 <=? c) && (c <=? 0x10FFFF)
            then cons c <$> utf8_decode bs4
            else None
        | _ => None
        end
      else None
  end.

(** The bytes of a source-file string. *)
Fixpoint string_bytes (s : string) : bytes :=
  match s with
  | EmptyString => []
  | String a rest => Z.of_N (Ascii.N_of_ascii a) :: string_bytes rest
  end.

(** A string literal of the script: the interpreter decodes the UTF-8
    source text into code points (the script's literals hold no escape
    sequence). *)
Definition literal (s : string) : text :=
  default [] (utf8_decode (string_bytes s)).

End Unicode.

Import Unicode.

(** ** JSON *)

Module Json.

(** *** The JSON encoder: [json.dumps(lst, ensure_ascii=False)], for a
    list of strings *)

(** ['{0:04x}'.format(i)]: one lowercase hexadecimal digit. *)
Definition hex_digit (d : Z) : Z := if d <? 10 then 0x30 + d else 0x61 + (d - 10).

Definition hex4 (i : Z) : text :=
  [hex_digit (Z.land (Z.shiftr i 12) 0xF); hex_digit (Z.land (Z.shiftr i 8) 0xF);
   hex_digit (Z.land (Z.shiftr i 4) 0xF); hex_digit (Z.land i 0xF)].

(** [ESCAPE_DCT]: what the pattern [ESCAPE] (the control characters
    U+0000..U+001F, the backslash and the double quote) replaces a matched
    character with; every other character is kept as it is
    ([ensure_ascii=False]). *)
Definition escape_char (c : Z) : text :=
  if c =? BACKSLASH then [BACKSLASH; BACKSLASH]
  else if c =? QUOTE then [BACKSLASH; QUOTE]
  else if c =? 0x08 then [BACKSLASH; 0x62]
  else if c =? 0x0C then [BACKSLASH; 0x66]
  else if c =? 0x0A then [BACKSLASH; 0x6E]
  else if c =? 0x0D then [BACKSLASH; 0x72]
  else if c =? 0x09 then [BACKSLASH; 0x74]
  else if (0 <=? c) && (c <? 0x20) then BACKSLASH :: LETTER_u :: hex4 c
  else [c].

(** [encode_basestring(s)]: [ESCAPE.sub(replace, s)] between two double
    quotes. *)
Definition encode_basestring (s : text) : text :=
  QUOTE :: flat_map escape_char s ++ [QUOTE].

Definition item_separator : text := [COMMA; SPACE].

(** The loop of [_iterencode_list]: [buf] is ['['] before the first item
    and the item separator before the others. *)
Fixpoint iterencode_items (buf : text) (lst : list text) : text :=
  match lst with
  | [] => []
  | value :: rest => buf ++ encode_basestring value ++ iterencode_items item_separator rest
  end.

Definition iterencode_list (lst : list text) : text :=
  match lst with
  | [] => [LBRACKET; RBRACKET]
  | _ => iterencode_items [LBRACKET] lst ++ [RBRACKET]
  end.

(** [json.dumps(lst, ensure_ascii=False)] for a list of strings. *)
Definition dumps (lst : list text) : text := iterencode_list lst.

(** *** The JSON decoder: [json.loads], for documents that are arrays of
    strings.  On these it follows the decoder; any other document,
    well-formed JSON or not, gives [None]. *)

Definition is_ws (c : Z) : bool :=
  (c =? 0x20) || (c =? 0x09) || (c =? 0x0A) || (c =? 0x0D).

(** [WHITESPACE.match(s, end).end()] *)
Fixpoint skip_ws (s : text) : text :=
  match s with
  | c :: rest => if is_ws c then skip_ws rest else s
  | [] => []
  end.

Definition hex_value (c : Z) : option Z :=
  if (0x30 <=? c) && (c <=? 0x39) then Some (c - 0x30)
  else if (0x61 <=? c) && (c <=? 0x66) then Some (c - 0x61 + 10)
  else if (0x41 <=? c) && (c <=? 0x46) then Some (c - 0x41 + 10)
  else None.

(** [_decode_uXXXX]: four hexadecimal digits. *)
Definition decode_uXXXX (a b c d : Z) : option Z :=
  match hex_value a, hex_value b, hex_value c, hex_value d with
  | Some x3, Some x2, Some x1, Some x0 =>
      Some (Z.lor (Z.shiftl x3 12) (Z.lor (Z.shiftl x2 8) (Z.lor (Z.shiftl x1 4) x0)))
  | _, _, _, _ => None
  end.

(** [BACKSLASH]: the one-character escapes. *)
Definition unescape (esc : Z) : option Z :=
  if esc =? QUOTE then Some QUOTE
  else if esc =? BACKSLASH then Some BACKSLASH
  else if esc =? SLASH then Some SLASH
  else if esc =? 0x62 then Some 0x08
  else if esc =? 0x66 then Some 0x0C
  else if esc =? 0x6E then Some 0x0A
  else if esc =? 0x72 then Some 0x0D
  else if esc =? 0x74 then Some 0x09
  else None.

Definition push (c : Z) (r : option (text * text)) : option (text * text) :=
  match r with
  | Some (t, rest) => Some (c :: t, rest)
  | None => None
  end.

(** [py_scanstring] in strict mode, from just after the opening quote:
    the decoded string and the input after the closing quote. *)
Fixpoint scanstring (s : text) : option (text * text) :=
  match s with
  | [] => None
  | c :: r =>
      if c =? QUOTE then Some ([], r)
      else if c =? BACKSLASH then
        match r with
        | [] => None
        | esc :: r1 =>
            if esc =? LETTER_u then
              match r1 with
              | h3 :: h2 :: h1 :: h0 :: r2 =>
                  match decode_uXXXX h3 h2 h1 h0 with
                  | None => None
                  | Some uni =>
                      if (0xD800 <=? uni) && (uni <=? 0xDBFF) then
                        match r2 with
                        | b :: u :: l3 :: l2 :: l1 :: l0 :: r3 =>
                            if (b =? BACKSLASH) && (u =? LETTER_u) then
                              match decode_uXXXX l3 l2 l1 l0 with
                              | None => None
                              | Some uni2 =>
                                  if (0xDC00 <=? uni2) && (uni2 <=? 0xDFFF) then
                                    push (0x10000 + Z.lor (Z.shiftl (uni - 0xD800) 10)
                                                      (uni2 - 0xDC00))
                                      (scanstring r3)
                                  else push uni (scanstring r2)
                              end
                            else push uni (scanstring r2)
                        | b :: u :: _ =>
                            if (b =? BACKSLASH) && (u =? LETTER_u) then None
                            else push uni (scanstring r2)
                        | _ => push uni (scanstring r2)
                        end
                      else push uni (scanstring r2)
                  end
              | _ => None
              end
            else
              match unescape esc with
              | Some ch => push ch (scanstring r1)
              | None => None
              end
        end
      else if (0 <=? c) && (c <? 0x20) then None
      else push c (scanstring r)
  end.

(** The loop of [JSONArray], from the start of a value; [fuel] bounds the
    number of items. *)
Fixpoint array_items (fuel : nat) (s : text) : option (list text * text) :=
  match fuel with
  | O => None
  | S fuel' =>
      match s with
      | c :: r =>
          if c =? QUOTE then
            match scanstring r with
            | None => None
            | Some (value, r1) =>
                match skip_ws r1 with
                | d :: r2 =>
                    if d =? RBRACKET then Some ([value], r2)
                    else if d =? COMMA then
                      match array_items fuel' (skip_ws r2) with
                      | Some (values, r3) => Some (value :: values, r3)
                      | None => None
                      end
                    else None
                | [] => None
                end
            end
          else None
      | [] => None
      end
  end.

(** [JSONArray], from just after the opening bracket. *)
Definition JSONArray (s : text) : option (list text * text) :=
  match skip_ws s with
  | c :: r => if c =? RBRACKET then Some ([], r) else array_items (length s) (skip_ws s)
  | [] => None
  end.

(** [json.loads(s)]: leading whitespace, one array, trailing whitespace,
    and nothing else. *)
Definition loads (s : text) : option (list text) :=
  match skip_ws s with
  | c :: r =>
      if c =? LBRACKET then
        match JSONArray r with
        | Some (values, rest) =>
            match skip_ws rest with
            | [] => Some values
            | _ => None
            end
        | None => None
        end
      else None
  | [] => None
  end.

End Json.

(** A text between two double quotes. *)
Definition dq (s : text) : text := QUOTE :: s ++ [QUOTE].

(** ** The interpreter state the script acts on *)

Module Runtime.

(** The exceptions the script can raise.  [FileNotFoundError],
    [NotADirectoryError], [IsADirectoryError] and the [OSError] of a name
    that is too long are the errors of the file system; [ValueError] is
    what [open] raises for a name with a null byte. *)
Inductive exn :=
| FileNotFoundError (path : string)
| NotADirectoryError (path : string)
| IsADirectoryError (path : string)
| OSError_ENAMETOOLONG (path : string)
| ValueError
| UnicodeEncodeError
| NameError (name : string).

(** The subclasses of [OSError]. *)
Definition filesystem_error (e : exn) : bool :=
  match e with
  | FileNotFoundError _ | NotADirectoryError _ | IsADirectoryError _
  | OSError_ENAMETOOLONG _ => true
  | ValueError | UnicodeEncodeError | NameError _ => false
  end.

(** The effects a process has on the world outside it. *)
Inductive event :=
| EvOpen (path : string)
| EvWrite (path : string) (data : bytes)
| EvClose (path : string)
| EvNetwork (peer : string).

(** The file an event acts on; a network event acts on none. *)
Definition event_path (e : event) : option string :=
  match e with
  | EvOpen p | EvWrite p _ | EvClose p => Some p
  | EvNetwork _ => None
  end.

Definition loc := nat.

(** The values the script computes with, besides strings, bytes and
    references to lists. *)
Inductive pyvalue :=
| PyNone
| PyInt (n : Z).

(** The world: the directories and the regular files of the file system
    (by path, the empty path being the current directory), the list
    objects of the heap (a Python list is mutable and passed by
    reference), and the effects performed so far. *)
Record world := World {
  w_dirs : gset string;
  w_files : gmap string bytes;
  w_lists : loc -> list text;
  w_next : loc;
  w_trace : list event
}.

Inductive outcome (A : Type) :=
| Returned (a : A)
| Raised (e : exn).
Arguments Returned {A} a.
Arguments Raised {A} e.

(** Computations: state passing with exceptions. *)
Definition M (A : Type) : Type := world -> world * outcome A.

Definition ret {A} (a : A) : M A := fun w => (w, Returned a).

Definition raise {A} (e : exn) : M A := fun w => (w, Raised e).

Definition bind {A B} (m : M A) (k : A -> M B) : M B :=
  fun w =>
    match m w with
    | (w1, Returned a) => k a w1
    | (w1, Raised e) => (w1, Raised e)
    end.

(** [try: body finally: cleanup] *)
Definition finally {A B} (body : M A) (cleanup : M B) : M A :=
  fun w =>
    match body w with
    | (w1, r) =>
        match cleanup w1 with
        | (w2, Returned _) => (w2, r)
        | (w2, Raised e) => (w2, Raised e)
        end
    end.

Declare Scope py_scope.
Delimit Scope py_scope with py.
Notation "x <- m ;; k" := (bind m (fun x => k))
  (at level 100, m at next level, right associativity) : py_scope.
Notation "m ;; k" := (bind m (fun _ => k))
  (at level 100, right associativity) : py_scope.
Local Open Scope py_scope.

(** *** Paths

    A path is the byte string handed to the system.  The world lists the
    directories and the regular files by their path in normal form:
    names separated by single slashes, relative to the current directory
    or, with a leading slash, to the root.  The current directory, its
    parents and the root always exist.  Links, special files, permissions
    and disk space are not part of the model. *)

Definition NAME_MAX : nat := 255.
Definition PATH_MAX : nat := 4096.

Fixpoint has_nul (p : string) : bool :=
  match p with
  | EmptyString => false
  | String a rest => Ascii.eqb a Ascii.zero || has_nul rest
  end.

Definition is_absolute (p : string) : bool :=
  match p with
  | String a _ => Ascii.eqb a "/"%char
  | EmptyString => false
  end.

Fixpoint ends_with_slash (p : string) : bool :=
  match p with
  | EmptyString => false
  | String a EmptyString => Ascii.eqb a "/"%char
  | String _ rest => ends_with_slash rest
  end.

(** The parts of [p] between its slashes. *)
Fixpoint split_slash (p : string) : list string :=
  match p with
  | EmptyString => [EmptyString]
  | String a rest =>
      if Ascii.eqb a "/"%char then EmptyString :: split_slash rest
      else
        match split_slash rest with
        | c :: cs => String a c :: cs
        | [] => [String a EmptyString]
        end
  end.

(** The names of [p]: repeated slashes count as one. *)
Definition names (p : string) : list string :=
  List.filter (fun n => negb (String.eqb n EmptyString)) (split_slash p).

(** The normal form of the directory reached through [stack] (the names
    gone through, last first). *)
Definition key_of (abs : bool) (stack : list string) : string :=
  ((if abs then "/" else "") ++ String.concat "/" (rev stack))%string.

(** [..] leaves the directory just entered; above the current directory
    it is kept as a name, above the root it stays at the root. *)
Definition pop (abs : bool) (stack : list string) : list string :=
  match stack with
  | n :: s => if String.eqb n ".." then ".."%string :: stack else s
  | [] => if abs then [] else [".."%string]
  end.

Inductive walk_result :=
| WOk
| WDirectory
| WMissing (key : string)
| WTooLong.

(** The walk of the system through the names of a path that is opened
    for writing with creation.  Every name before the last must be an
    existing directory.  The last name is the file to create or truncate,
    unless the path ends with a slash, in a dot or in nothing, or names an
    existing directory. *)
Fixpoint walk (dirs : gset string) (abs trailing : bool)
    (stack names : list string) : walk_result :=
  match names with
  | [] => WDirectory
  | n :: rest =>
      if String.eqb n "." then walk dirs abs trailing stack rest
      else if String.eqb n ".." then walk dirs abs trailing (pop abs stack) rest
      else
        match rest with
        | [] =>
            if trailing then WDirectory
            else if (NAME_MAX <? String.length n)%nat then WTooLong
            else if bool_decide (key_of abs (n :: stack) ∈ dirs) then WDirectory
            else WOk
        | _ :: _ =>
            if (NAME_MAX <? String.length n)%nat then WTooLong
            else if bool_decide (key_of abs (n :: stack) ∈ dirs)
            then walk dirs abs trailing (n :: stack) rest
            else WMissing (key_of abs (n :: stack))
        end
  end.

(** The directories a path goes through, in normal form. *)
Fixpoint ancestors_from (abs : bool) (stack names : list string) : list string :=
  match names with
  | [] => []
  | n :: rest =>
      if String.eqb n "." then ancestors_from abs stack rest
      else if String.eqb n ".." then ancestors_from abs (pop abs stack) rest
      else
        match rest with
        | [] => []
        | _ :: _ => key_of abs (n :: stack) :: ancestors_from abs (n :: stack) rest
        end
  end.

Definition ancestors (p : string) : list string :=
  ancestors_from (is_absolute p) [] (names p).

(** *** Files *)

Record file := File { f_path : string }.

Definition set_files (fs : gmap string bytes) (w : world) : world :=
  World (w_dirs w) fs (w_lists w) (w_next w) (w_trace w).

Definition log (e : event) (w : world) : world :=
  World (w_dirs w) (w_files w) (w_lists w) (w_next w) (w_trace w ++ [e]).

(** Why [open(path, 'wb')] fails, if it does: a null byte in the name
    ([ValueError], raised before the system is asked), the empty path, a
    path or a name that is too long, a name on the way that is missing or
    is a regular file, a path that names a directory. *)
Definition resolve (w : world) (path : string) : option exn :=
  if has_nul path then Some ValueError
  else if String.eqb path EmptyString then Some (FileNotFoundError path)
  else if (PATH_MAX <=? String.length path)%nat then Some (OSError_ENAMETOOLONG path)
  else
    match walk (w_dirs w) (is_absolute path) (ends_with_slash path) [] (names path) with
    | WOk => None
    | WDirectory => Some (IsADirectoryError path)
    | WMissing key =>
        if bool_decide (key ∈ dom (w_files w)) then Some (NotADirectoryError path)
        else Some (FileNotFoundError path)
    | WTooLong => Some (OSError_ENAMETOOLONG path)
    end.

(** [open(path, 'wb')]: the file is created, or truncated when it exists.
    It is kept under the path as spelled: two spellings of one file are
    two files of the model. *)
Definition open_wb (path : string) : M file :=
  fun w =>
    match resolve w path with
    | Some e => (w, Raised e)
    | None =>
        (log (EvOpen path) (set_files (<[path := []]> (w_files w)) w),
         Returned (File path))
    end.

(** [f.write(data)]: the bytes go after those written so far (the model
    has no buffer: they reach the file at once); the result is their
    number. *)
Definition file_write (f : file) (data : bytes) : M pyvalue :=
  fun w =>
    let old := default [] (w_files w !! f_path f) in
    (log (EvWrite (f_path f) data) (set_files (<[f_path f := old ++ data]> (w_files w)) w),
     Returned (PyInt (Z.of_nat (length data)))).

(** [f.close()] *)
Definition file_close (f : file) : M pyvalue :=
  fun w => (log (EvClose (f_path f)) w, Returned PyNone).

(** [with open(path, 'wb') as f: body]: the file is closed when the body
    ends, also when it raises, and the exception goes on. *)
Definition with_open_wb {A} (path : string) (body : file -> M A) : M A :=
  f <- open_wb path ;;
  finally (body f) (file_close f).

(** *** Strings and lists *)

(** [json.dumps(lst, ensure_ascii=False)] on a reference to a list of
    strings. *)
Definition json_dumps (lst : loc) : M text :=
  fun w => (w, Returned (Json.dumps (w_lists w lst))).

(** [s.encode('utf8')] *)
Definition str_encode_utf8 (s : text) : M bytes :=
  match utf8_encode s with
  | Some b => ret b
  | None => raise UnicodeEncodeError
  end.

(** A list display [[x1, ..., xn]]: a new list object. *)
Definition new_list (items : list text) : M loc :=
  fun w =>
    let l := w_next w in
    (World (w_dirs w) (w_files w)
       (fun l' => if decide (l' = l) then items else w_lists w l')
       (S l) (w_trace w),
     Returned l).

(** Loading a global name. *)
Definition load_name (globals : gmap string loc) (name : string) : M loc :=
  match globals !! name with
  | Some l => ret l
  | None => raise (NameError name)
  end.

End Runtime.

Import Runtime.
Local Open Scope py_scope.

(** ** The script *)

(** [def convert_list_to_json(lst, filename='countries.json')]: a call
    that gives no file name binds [filename] to the default. *)
Definition convert_list_to_json (lst : loc) (filename : option string) : M pyvalue :=
  let filename := default "countries.json"%string filename in
  with_open_wb filename (fun f =>
    s <- json_dumps lst ;;
    data <- str_encode_utf8 s ;;
    file_write f data) ;;
  ret PyNone.

(** The list display of the script, under the [__main__] guard. *)
Definition countries : list text := map literal [
   "Afghanistan"; "Åland Islands"; "Albania"; "Algeria"; "American Samoa";
    "Andorra"; "Angola"; "Anguilla"; "Antarctica"; "Antigua and Barbuda";
    "Argentina"; "Armenia"; "Aruba"; "Australia"; "Austria"; "Azerbaijan";
    "Bahamas"; "Bahrain"; "Bangladesh"; "Barbados"; "Belarus"; "Belgium";
    "Belize"; "Benin"; "Bermuda"; "Bhutan";
    "Bolivia (Plurinational State of)"; "Bonaire, Sint Eustatius and Saba";
    "Bosnia and Herzegovina"; "Botswana"; "Bouvet Island"; "Brazil";
    "British Indian Ocean Territory"; "United States Minor Outlying Islands";
    "Virgin Islands (British)"; "Virgin Islands (U.S.)"; "Brunei Darussalam";
    "Bulgaria"; "Burkina Faso"; "Burundi"; "Cambodia"; "Cameroon"; "Canada";
    "Cabo Verde"; "Cayman Islands"; "Central African Republic"; "Chad";
    "Chile"; "China"; "Christmas Island"; "Cocos (Keeling) Islands";
    "Colombia"; "Comoros"; "Congo"; "Congo (Democratic Republic of the)";
    "Cook Islands"; "Costa Rica"; "Croatia"; "Cuba"; "Curaçao"; "Cyprus";
    "Czech Republic"; "Denmark"; "Djibouti"; "Dominica"; "Dominican Republic";
    "Ecuador"; "Egypt"; "El Salvador"; "Equatorial Guinea"; "Eritrea";
    "Estonia"; "Ethiopia"; "Falkland Islands (Malvinas)"; "Faroe Islands";
    "Fiji"; "Finland"; "France"; "French Guiana"; "French Polynesia";
    "French Southern Territories"; "Gabon"; "Gambia"; "Georgia"; "Germany";
    "Ghana"; "Gibraltar"; "Greece"; "Greenland"; "Grenada"; "Guadeloupe";
    "Guam"; "Guatemala"; "Guernsey"; "Guinea"; "Guinea-Bissau"; "Guyana";
    "Haiti"; "Heard Island and McDonald Islands"; "Holy See"; "Honduras";
    "Hong Kong"; "Hungary"; "Iceland"; "India"; "Indonesia"; "Côte d'Ivoire";
    "Iran (Islamic Republic of)"; "Iraq"; "Ireland"; "Isle of Man"; "Israel";
    "Italy"; "Jamaica"; "Japan"; "Jersey"; "Jordan"; "Kazakhstan"; "Kenya";
    "Kiribati"; "Kuwait"; "Kyrgyzstan"; "Lao People's Democratic Republic";
    "Latvia"; "Lebanon"; "Lesotho"; "Liberia"; "Libya"; "Liechtenstein";
    "Lithuania"; "Luxembourg"; "Macao";
    "Macedonia (the former Yugoslav Republic of)"; "Madagascar"; "Malawi";
    "Malaysia"; "Maldives"; "Mali"; "Malta"; "Marshall Islands"; "Martinique";
    "Mauritania"; "Mauritius"; "Mayotte"; "Mexico";
    "Micronesia (Federated States of)"; "Moldova (Republic of)"; "Monaco";
    "Mongolia"; "Montenegro"; "Montserrat"; "Morocco"; "Mozambique";
    "Myanmar"; "Namibia"; "Nauru"; "Nepal"; "Netherlands"; "New Caledonia";
    "New Zealand"; "Nicaragua"; "Niger"; "Nigeria"; "Niue"; "Norfolk Island";
    "Korea (Democratic People's Republic of)"; "Northern Mariana Islands";
    "Norway"; "Oman"; "Pakistan"; "Palau"; "Palestine, State of"; "Panama";
    "Papua New Guinea"; "Paraguay"; "Peru"; "Philippines"; "Pitcairn";
    "Poland"; "Portugal"; "Puerto Rico"; "Qatar"; "Republic of Kosovo";
    "Réunion"; "Romania"; "Russian Federation"; "Rwanda"; "Saint Barthélemy";
    "Saint Helena, Ascension and Tristan da Cunha"; "Saint Kitts and Nevis";
    "Saint Lucia"; "Saint Martin (French part)"; "Saint Pierre and Miquelon";
    "Saint Vincent and the Grenadines"; "Samoa"; "San Marino";
    "Sao Tome and Principe"; "Saudi Arabia"; "Senegal"; "Serbia";
    "Seychelles"; "Sierra Leone"; "Singapore"; "Sint Maarten (Dutch part)";
    "Slovakia"; "Slovenia"; "Solomon Islands"; "Somalia"; "South Africa";
    "South Georgia and the South Sandwich Islands"; "Korea (Republic of)";
    "South Sudan"; "Spain"; "Sri Lanka"; "Sudan"; "Suriname";
    "Svalbard and Jan Mayen"; "Swaziland"; "Sweden"; "Switzerland";
    "Syrian Arab Republic"; "Taiwan"; "Tajikistan";
    "Tanzania, United Republic of"; "Thailand"; "Timor-Leste"; "Togo";
    "Tokelau"; "Tonga"; "Trinidad and Tobago"; "Tunisia"; "Turkey";
    "Turkmenistan"; "Turks and Caicos Islands"; "Tuvalu"; "Uganda"; "Ukraine";
    "United Arab Emirates";
    "United Kingdom of Great Britain and Northern Ireland";
    "United States of America"; "Uruguay"; "Uzbekistan"; "Vanuatu";
    "Venezuela (Bolivarian Republic of)"; "Viet Nam"; "Wallis and Futuna";
    "Western Sahara"; "Yemen"; "Zambia"; "Zimbabwe"
]%string.

(** The module body.  [name] is the value of [__name__]: [__main__] when
    the script is run, the module's name when it is imported.  The
    assignment to [countries] is inside the guard, the call on the last
    line is not.  Of the global names only [countries] is tracked: [json]
    and [convert_list_to_json] are always bound. *)
Definition run_module (name : string) : M pyvalue :=
  globals <-
    (if decide (name = "__main__"%string) then
       l <- new_list countries ;;
       ret (<["countries"%string := l]> (∅ : gmap string loc))
     else ret (∅ : gmap string loc)) ;;
  lst <- load_name globals "countries" ;;
  convert_list_to_json lst (Some "exercises/countries.json"%string) ;;
  ret PyNone.


(** ** Observations on the world *)

(** Every element of the list is a text value. *)
Definition all_text (items : list text) : bool := forallb is_text items.

(** [open(path, 'wb')] succeeds. *)
Definition writable (w : world) (path : string) : bool :=
  match resolve w path with
  | None => true
  | Some _ => false
  end.

(** Reading a file and decoding it as UTF-8. *)
Definition read_text (w : world) (path : string) : option text :=
  match w_files w !! path with
  | Some data => utf8_decode data
  | None => None
  end.

(** Reading a file, decoding it as UTF-8 and parsing it as JSON. *)
Definition read_json (w : world) (path : string) : option (list text) :=
  match read_text w path with
  | Some s => Json.loads s
  | None => None
  end.

(** [sep.join(parts)] *)
Fixpoint join (sep : bytes) (parts : list bytes) : bytes :=
  match parts with
  | [] => []
  | [x] => x
  | x :: rest => x ++ sep ++ join sep rest
  end.

(** The bytes one character of an element gives in the file: the UTF-8
    encoding of what the JSON encoder makes of it. *)
Definition char_output (c : Z) : bytes :=
  default [] (utf8_encode (Json.escape_char c)).

(** One element in the file: its characters between two double quotes. *)
Definition item_output (s : text) : bytes :=
  [QUOTE] ++ flat_map char_output s ++ [QUOTE].

(** The world after a successful [convert_list_to_json] that wrote [data]
    to [path]. *)
Definition written (w : world) (path : string) (data : bytes) : world :=
  World (w_dirs w) (<[path := data]> (w_files w)) (w_lists w) (w_next w)
    (w_trace w ++ [EvOpen path; EvWrite path data; EvClose path]).

(** ** Sample inputs *)

(** A world with the current directory and nothing else, whose heap holds
    [items] at every reference. *)
Definition demo_world (items : list text) : world :=
  World {[ ""%string ]} ∅ (fun _ => items) 1%nat [].

(** Elements with a quote, a backslash, control characters, characters of
    two, three and four UTF-8 bytes, and an empty one. *)
Definition tricky_items : list text :=
  [[QUOTE]; [BACKSLASH; LETTER_u]; literal "Åland Islands"; [0x0A; 0x01; 0x7F];
   [0x20AC; 0x1F600]; []].

Definition two_items : list text := [literal "A"; literal "Å"].

(** The text of the JSON array of [two_items]. *)
Definition two_items_text : text :=
  [LBRACKET] ++ dq (literal "A") ++ [COMMA; SPACE] ++ dq (literal "Å") ++ [RBRACKET].

Definition afghanistan_albania : list text :=
  [literal "Afghanistan"; literal "Albania"].

(** The text of the JSON array of [afghanistan_albania]. *)
Definition afghanistan_albania_text : text :=
  [LBRACKET] ++ dq (literal "Afghanistan") ++ [COMMA; SPACE]
    ++ dq (literal "Albania") ++ [RBRACKET].

Definition non_ascii_items : list text :=
  [literal "Åland Islands"; literal "Côte d'Ivoire"; literal "Curaçao"].

(** A world whose heap holds a long list at reference 0 and a short one
    elsewhere, and the same world after the long list was written to
    [out.json]. *)
Definition two_lists_world : world :=
  World {[ ""%string ]} ∅
    (fun l => if decide (l = 0%nat) then tricky_items else two_items) 2%nat [].

Definition two_lists_world_written : world :=
  written two_lists_world "out.json"
    (default [] (utf8_encode (Json.dumps tricky_items))).

(** The sample world after [two_items] was written to [out.json]. *)
Definition two_items_written : world :=
  written (demo_world two_items) "out.json"
    [0x5B; 0x22; 0x41; 0x22; 0x2C; 0x20; 0x22; 0xC3; 0x85; 0x22; 0x5D].

(** ** More observations and sample worlds *)

(** Some element holds a surrogate code point. *)
Definition has_surrogate (items : list text) : bool :=
  existsb (existsb is_surrogate) items.

Definition is_ascii (c : Z) : bool := (0 <=? c) && (c <? 0x80).

(** Every character of every element is ASCII. *)
Definition all_ascii (items : list text) : bool := forallb (forallb is_ascii) items.

(** A byte that is not a control character. *)
Definition printable_byte (b : Z) : bool := (0x20 <=? b) && (b <? 0x100).

(** A list whose second element is a lone high surrogate. *)
Definition surrogate_items : list text := [literal "A"; [0xD83D]].

(** A world where [out.json] already holds three bytes. *)
Definition old_file_world (items : list text) : world :=
  World {[ ""%string ]} {[ "out.json"%string := [0x6F; 0x6C; 0x64] ]}
    (fun _ => items) 1%nat [].

(** A world where [exercises] is a regular file. *)
Definition exercises_file_world : world :=
  World {[ ""%string ]} {[ "exercises"%string := [0x6F; 0x6C; 0x64] ]}
    (fun _ => []) 0%nat [].

(** A world where the directory [exercises] exists. *)
Definition exercises_world : world :=
  World {[ ""%string; "exercises"%string ]} ∅ (fun _ => []) 0%nat [].

(** [old_file_world] after a call that failed to encode. *)
Definition old_file_world_emptied (items : list text) : world :=
  World {[ ""%string ]} {[ "out.json"%string := [] ]} (fun _ => items) 1%nat
    [EvOpen "out.json"; EvClose "out.json"].

(** The UTF-8 form of a scalar value as the Unicode standard tabulates
    it: one to four bytes, the bits of the code point dealt out six at a
    time below the marker of the first byte. *)
Definition raw_utf8 (c : Z) : bytes :=
  if c <? 0x80 then [c]
  else if c <? 0x800 then [0xC0 + c / 0x40; 0x80 + c mod 0x40]
  else if c <? 0x10000 then
    [0xE0 + c / 0x1000; 0x80 + (c / 0x40) mod 0x40; 0x80 + c mod 0x40]
  else
    [0xF0 + c / 0x40000; 0x80 + (c / 0x1000) mod 0x40;
     0x80 + (c / 0x40) mod 0x40; 0x80 + c mod 0x40].

(** What the file is to hold for one character of an element: the raw
    UTF-8 form of a character outside ASCII, and for an ASCII character
    the characters of its JSON form, one byte each. *)
Definition file_char (c : Z) : bytes :=
  if 0x80 <=? c then raw_utf8 c else Json.escape_char c.

(** What the file is to hold for one element. *)
Definition file_item (s : text) : bytes :=
  [QUOTE] ++ flat_map file_char s ++ [QUOTE].

(** ** The model on concrete inputs *)

Example literal_ascii : literal "Albania" = [65; 108; 98; 97; 110; 105; 97].
Proof. reflexivity. Qed.

Example literal_aland : literal "Åland" = [0xC5; 108; 97; 110; 100].
Proof. vm_compute. reflexivity. Qed.

Example encode_aland : utf8_encode (literal "Åland") = Some (string_bytes "Åland").
Proof. vm_compute. reflexivity. Qed.

Example encode_lone_surrogate : utf8_encode [0xD800] = None.
Proof. reflexivity. Qed.

Example dumps_two : Json.dumps [literal "A"; literal "Å"] =
  literal "[" ++ dq (literal "A") ++ literal ", " ++ dq (literal "Å") ++ literal "]".
Proof. vm_compute. reflexivity. Qed.

Example dumps_escapes : Json.dumps [[0x22; 0x5C; 0x0A; 0x01; 0x7F; 0x1F600]] =
  literal "[" ++ dq ([BACKSLASH; QUOTE] ++ [BACKSLASH; BACKSLASH] ++ BACKSLASH :: literal "n"
                       ++ BACKSLASH :: literal "u0001" ++ [0x7F; 0x1F600]) ++ literal "]".
Proof. vm_compute. reflexivity. Qed.

Example loads_two : Json.loads (literal " [ " ++ dq (literal "AÅ😀\/") ++ literal " ,"
  ++ dq (literal "Å") ++ literal "] ") = Some [[65; 0xC5; 0x1F600; 0x2F]; [0xC5]].
Proof. vm_compute. reflexivity. Qed.

Example loads_roundtrip : Json.loads (Json.dumps [[0x22; 0x5C; 0x0A; 0x01; 0x7F; 0x1F600]; []]) =
  Some [[0x22; 0x5C; 0x0A; 0x01; 0x7F; 0x1F600]; []].
Proof. vm_compute. reflexivity. Qed.

Example decode_strict :
  map utf8_decode [[0xC0; 0x80]; [0xED; 0xA0; 0x80]; [0xF4; 0x90; 0x80; 0x80]; [0xE2; 0x82]]
    = [None; None; None; None].
Proof. reflexivity. Qed.

Example loads_surrogate_pair :
  Json.loads (literal "[" ++ dq (literal "\ud83d\ude00") ++ literal "]") = Some [[0x1F600]].
Proof. vm_compute. reflexivity. Qed.

Example loads_strict :
  map Json.loads
    [literal "[" ++ dq (literal "a") ++ literal ",]";
     literal "[" ++ dq (literal "a") ++ literal " " ++ dq (literal "b") ++ literal "]";
     literal "[" ++ dq [0x0A] ++ literal "]";
     literal "[" ++ dq (literal "\x") ++ literal "]";
     literal "[] x";
     literal "[" ++ dq (literal "a")]
    = [None; None; None; None; None; None].
Proof. vm_compute. reflexivity. Qed.

(** What [open] answers in a world where [exercises] is a regular file:
    a plain name, the empty path, a null byte, a trailing slash, a regular
    file on the way, a missing directory, a dot, a name of 256 bytes. *)
Example resolve_cases :
  map (resolve exercises_file_world)
    ["out.json"; ""; String Ascii.zero "x"; "out.json/"; "exercises/countries.json";
     "missing/countries.json"; "./out.json"; "."; "missing/../out.json";
     String.concat "" (repeat "x" 256)]%string
  = [None; Some (FileNotFoundError ""); Some ValueError;
     Some (IsADirectoryError "out.json/");
     Some (NotADirectoryError "exercises/countries.json");
     Some (FileNotFoundError "missing/countries.json");
     None; Some (IsADirectoryError ".");
     Some (FileNotFoundError "missing/../out.json");
     Some (OSError_ENAMETOOLONG (String.concat "" (repeat "x" 256)))]%string.
Proof. vm_compute. reflexivity. Qed.

(** ** Bit arithmetic of the UTF-8 codec *)

Ltac zbool :=
  repeat match goal with
  | H : (_ && _) = true |- _ => apply andb_true_iff in H; destruct H
  | H : (_ && _) = false |- _ => apply andb_false_iff in H; destruct H
  | H : (_ || _) = true |- _ => apply orb_true_iff in H; destruct H
  | H : (_ || _) = false |- _ => apply orb_false_iff in H; destruct H
  | H : negb _ = true |- _ => apply negb_true_iff in H
  | H : negb _ = false |- _ => apply negb_false_iff in H
  | H : (_ <=? _) = true |- _ => apply Z.leb_le in H
  | H : (_ <=? _) = false |- _ => apply Z.leb_gt in H
  | H : (_ <? _) = true |- _ => apply Z.ltb_lt in H
  | H : (_ <? _) = false |- _ => apply Z.ltb_ge in H
  | H : (_ =? _) = true |- _ => apply Z.eqb_eq in H
  | H : (_ =? _) = false |- _ => apply Z.eqb_neq in H
  end.

(** Decides the first test of the goal by arithmetic. *)
Ltac test_true :=
  match goal with
  | |- context [if ?b then _ else _] =>
      let E := fresh "E" in
      destruct b eqn:E; [clear E | exfalso; zbool; lia]
  end.
Ltac test_false :=
  match goal with
  | |- context [if ?b then _ else _] =>
      let E := fresh "E" in
      destruct b eqn:E; [exfalso; zbool; lia | clear E]
  end.

Section Bits.

Lemma forall_below (P : Z -> bool) (n : nat) :
  forallb P (map Z.of_nat (seq 0 n)) = true ->
  forall x, 0 <= x < Z.of_nat n -> P x = true.
Proof.
  intros H x Hx. rewrite forallb_forall in H. apply H.
  apply in_map_iff. exists (Z.to_nat x). split; [lia|].
  apply in_seq. lia.
Qed.

Lemma land_shiftl_low h l n :
  0 <= n -> 0 <= l < 2 ^ n -> Z.land (Z.shiftl h n) l = 0.
Proof.
  intros Hn Hl. apply Z.bits_inj'. intros i Hi.
  rewrite Z.land_spec, Z.bits_0.
  destruct (Z.lt_ge_cases i n) as [Hlt|Hge].
  - rewrite Z.shiftl_spec_low by lia. reflexivity.
  - destruct (Z.eq_dec l 0) as [->|Hne].
    + rewrite Z.bits_0. apply andb_false_r.
    + rewrite (Z.bits_above_log2 l i); [apply andb_false_r|lia|].
      assert (Z.log2 l < n) by (apply Z.log2_lt_pow2; lia). lia.
Qed.

Lemma lor_shiftl_add h l n :
  0 <= n -> 0 <= l < 2 ^ n -> Z.lor (Z.shiftl h n) l = h * 2 ^ n + l.
Proof.
  intros Hn Hl.
  rewrite <- Z.lxor_lor by (apply land_shiftl_low; assumption).
  rewrite <- Z.add_nocarry_lxor by (apply land_shiftl_low; assumption).
  rewrite Z.shiftl_mul_pow2 by assumption. reflexivity.
Qed.

Lemma land_63 c : Z.land c 0x3F = c mod 64.
Proof. change 0x3F with (Z.ones 6). rewrite Z.land_ones by lia. reflexivity. Qed.

(** Facts on a few bits, checked on every value. *)
Ltac by_cases_below n :=
  let x := fresh "x" in
  let Hx := fresh "Hx" in
  intros x Hx; apply Z.eqb_eq;
  match goal with
  | |- ?b = true =>
      let P := eval pattern x in b in
      match P with
      | ?f _ => exact (forall_below f n eq_refl x Hx)
      end
  end.

Lemma lor_C0 x : 0 <= x < 32 -> Z.lor 0xC0 x = 0xC0 + x.
Proof. revert x. by_cases_below 32%nat. Qed.

Lemma land_C0 x : 0 <= x < 32 -> Z.land (0xC0 + x) 0x1F = x.
Proof. revert x. by_cases_below 32%nat. Qed.

Lemma lor_E0 x : 0 <= x < 16 -> Z.lor 0xE0 x = 0xE0 + x.
Proof. revert x. by_cases_below 16%nat. Qed.

Lemma land_E0 x : 0 <= x < 16 -> Z.land (0xE0 + x) 0x0F = x.
Proof. revert x. by_cases_below 16%nat. Qed.

Lemma lor_F0 x : 0 <= x < 8 -> Z.lor 0xF0 x = 0xF0 + x.
Proof. revert x. by_cases_below 8%nat. Qed.

Lemma land_F0 x : 0 <= x < 8 -> Z.land (0xF0 + x) 0x07 = x.
Proof. revert x. by_cases_below 8%nat. Qed.

Lemma lor_80 x : 0 <= x < 64 -> Z.lor 0x80 x = 0x80 + x.
Proof. revert x. by_cases_below 64%nat. Qed.

Lemma land_80 x : 0 <= x < 64 -> Z.land (0x80 + x) 0x3F = x.
Proof. revert x. by_cases_below 64%nat. Qed.

End Bits.

(** ** UTF-8: what is encoded decodes to itself *)

Section Utf8.

Lemma encode_char_1 c : c < 0x80 -> utf8_encode_char c = Some [c].
Proof. intros H. unfold utf8_encode_char. test_true. reflexivity. Qed.

Lemma encode_char_2 c :
  0x80 <= c < 0x800 -> utf8_encode_char c = Some [0xC0 + c / 64; 0x80 + c mod 64].
Proof.
  intros H. unfold utf8_encode_char. test_false. test_true.
  rewrite Z.shiftr_div_pow2, land_63 by lia. change (2 ^ 6) with 64.
  rewrite (lor_C0 (c / 64)) by (Z.div_mod_to_equations; lia).
  rewrite (lor_80 (c mod 64)) by (Z.div_mod_to_equations; lia).
  reflexivity.
Qed.

Lemma encode_char_3 c :
  0x800 <= c < 0x10000 -> is_surrogate c = false ->
  utf8_encode_char c =
    Some [0xE0 + c / 4096; 0x80 + (c / 64) mod 64; 0x80 + c mod 64].
Proof.
  intros H Hs. unfold utf8_encode_char. test_false. test_false. test_true.
  rewrite Hs. rewrite !Z.shiftr_div_pow2, !land_63 by lia.
  change (2 ^ 6) with 64. change (2 ^ 12) with 4096.
  rewrite (lor_E0 (c / 4096)) by (Z.div_mod_to_equations; lia).
  rewrite (lor_80 (c mod 64)) by (Z.div_mod_to_equations; lia).
  rewrite (lor_80 ((c / 64) mod 64)) by (Z.div_mod_to_equations; lia).
  reflexivity.
Qed.

Lemma encode_char_4 c :
  0x10000 <= c <= 0x10FFFF ->
  utf8_encode_char c =
    Some [0xF0 + c / 262144; 0x80 + (c / 4096) mod 64;
          0x80 + (c / 64) mod 64; 0x80 + c mod 64].
Proof.
  intros H. unfold utf8_encode_char. test_false. test_false. test_false.
  rewrite !Z.shiftr_div_pow2, !land_63 by lia.
  change (2 ^ 6) with 64. change (2 ^ 12) with 4096. change (2 ^ 18) with 262144.
  rewrite (lor_F0 (c / 262144)) by (Z.div_mod_to_equations; lia).
  rewrite (lor_80 (c mod 64)) by (Z.div_mod_to_equations; lia).
  rewrite (lor_80 ((c / 64) mod 64)) by (Z.div_mod_to_equations; lia).
  rewrite (lor_80 ((c / 4096) mod 64)) by (Z.div_mod_to_equations; lia).
  reflexivity.
Qed.

Lemma decode_1 c rest :
  0 <= c < 0x80 -> utf8_decode (c :: rest) = cons c <$> utf8_decode rest.
Proof. intros H. cbn [utf8_decode]. test_true. reflexivity. Qed.

Lemma decode_2 h l rest :
  2 <= h < 32 -> 0 <= l < 64 ->
  utf8_decode (0xC0 + h :: 0x80 + l :: rest) = cons (h * 64 + l) <$> utf8_decode rest.
Proof.
  intros Hh Hl. cbn [utf8_decode]. unfold is_cont.
  test_false. test_true. test_true.
  rewrite land_C0, land_80, lor_shiftl_add by (change (2 ^ 6) with 64; lia).
  reflexivity.
Qed.

Lemma decode_3 h m l rest :
  0 <= h < 16 -> 0 <= m < 64 -> 0 <= l < 64 ->
  0x800 <= h * 4096 + m * 64 + l -> is_surrogate (h * 4096 + m * 64 + l) = false ->
  utf8_decode (0xE0 + h :: 0x80 + m :: 0x80 + l :: rest) =
    cons (h * 4096 + m * 64 + l) <$> utf8_decode rest.
Proof.
  intros Hh Hm Hl Hc Hs. cbn [utf8_decode]. unfold is_cont.
  test_false. test_false. test_true.
  rewrite land_E0, !land_80 by lia.
  rewrite (lor_shiftl_add m l 6) by (change (2 ^ 6) with 64; lia).
  rewrite lor_shiftl_add by (change (2 ^ 6) with 64; change (2 ^ 12) with 4096; lia).
  change (2 ^ 6) with 64. change (2 ^ 12) with 4096.
  replace (h * 4096 + (m * 64 + l)) with (h * 4096 + m * 64 + l) by lia.
  cbv zeta. rewrite Hs. test_true. reflexivity.
Qed.

Lemma decode_4 h m1 m2 l rest :
  0 <= h < 8 -> 0 <= m1 < 64 -> 0 <= m2 < 64 -> 0 <= l < 64 ->
  0x10000 <= h * 262144 + m1 * 4096 + m2 * 64 + l <= 0x10FFFF ->
  utf8_decode (0xF0 + h :: 0x80 + m1 :: 0x80 + m2 :: 0x80 + l :: rest) =
    cons (h * 262144 + m1 * 4096 + m2 * 64 + l) <$> utf8_decode rest.
Proof.
  intros Hh Hm1 Hm2 Hl Hc. cbn [utf8_decode]. unfold is_cont.
  test_false. test_false. test_false. test_true.
  rewrite land_F0, !land_80 by lia.
  rewrite (lor_shiftl_add m2 l 6) by (change (2 ^ 6) with 64; lia).
  rewrite (lor_shiftl_add m1 _ 12)
    by (change (2 ^ 6) with 64; change (2 ^ 12) with 4096; lia).
  rewrite lor_shiftl_add
    by (change (2 ^ 6) with 64; change (2 ^ 12) with 4096;
        change (2 ^ 18) with 262144; lia).
  change (2 ^ 6) with 64. change (2 ^ 12) with 4096. change (2 ^ 18) with 262144.
  replace (h * 262144 + (m1 * 4096 + (m2 * 64 + l)))
    with (h * 262144 + m1 * 4096 + m2 * 64 + l) by lia.
  cbv zeta. test_true. reflexivity.
Qed.

(** One code point: the encoder accepts a scalar value, gives bytes, and
    the decoder reads them back whatever follows. *)
Lemma utf8_char_roundtrip c :
  is_scalar c = true ->
  exists bs, utf8_encode_char c = Some bs /\
    Forall (fun b => is_byte b = true) bs /\
    forall rest, utf8_decode (bs ++ rest) = cons c <$> utf8_decode rest.
Proof.
  unfold is_scalar. intros H. zbool.
  destruct (Z.lt_ge_cases c 0x80) as [R1|R1];
    [|destruct (Z.lt_ge_cases c 0x800) as [R2|R2];
      [|destruct (Z.lt_ge_cases c 0x10000) as [R3|R3]]].
  - exists [c]. rewrite encode_char_1 by lia. split; [reflexivity|]. split.
    + repeat constructor. unfold is_byte. apply andb_true_intro. split; [apply Z.leb_le|apply Z.ltb_lt]; lia.
    + intros rest. apply decode_1. lia.
  - eexists. rewrite encode_char_2 by lia. split; [reflexivity|]. split.
    + repeat constructor; unfold is_byte; apply andb_true_intro;
        (split; [apply Z.leb_le|apply Z.ltb_lt]); Z.div_mod_to_equations; lia.
    + intros rest. cbn [app]. rewrite decode_2 by (Z.div_mod_to_equations; lia).
      f_equal. f_equal. Z.div_mod_to_equations; lia.
  - eexists. rewrite encode_char_3 by (try lia; assumption). split; [reflexivity|]. split.
    + repeat constructor; unfold is_byte; apply andb_true_intro;
        (split; [apply Z.leb_le|apply Z.ltb_lt]); Z.div_mod_to_equations; lia.
    + intros rest. cbn [app].
      assert (c / 4096 * 4096 + c / 64 mod 64 * 64 + c mod 64 = c) as E
        by (Z.div_mod_to_equations; lia).
      rewrite decode_3; rewrite ?E; try assumption; try lia;
        try (Z.div_mod_to_equations; lia).
      reflexivity.
  - eexists. rewrite encode_char_4 by lia. split; [reflexivity|]. split.
    + repeat constructor; unfold is_byte; apply andb_true_intro;
        (split; [apply Z.leb_le|apply Z.ltb_lt]); Z.div_mod_to_equations; lia.
    + intros rest. cbn [app].
      assert (c / 262144 * 262144 + c / 4096 mod 64 * 4096 + c / 64 mod 64 * 64
              + c mod 64 = c) as E by (Z.div_mod_to_equations; lia).
      rewrite decode_4; rewrite ?E; try lia; try (Z.div_mod_to_equations; lia).
      reflexivity.
Qed.

End Utf8.

Section Utf8Strings.

Lemma utf8_encode_app s t :
  utf8_encode (s ++ t) =
    match utf8_encode s, utf8_encode t with
    | Some a, Some b => Some (a ++ b)
    | _, _ => None
    end.
Proof.
  induction s as [|c s IH]; cbn [app utf8_encode].
  - destruct (utf8_encode t); reflexivity.
  - rewrite IH. destruct (utf8_encode_char c), (utf8_encode s), (utf8_encode t);
      rewrite <- ?app_assoc; reflexivity.
Qed.

(** A text value: the encoder accepts it, gives bytes, and the decoder
    reads them back. *)
Lemma utf8_roundtrip s :
  is_text s = true ->
  exists bs, utf8_encode s = Some bs /\
    Forall (fun b => is_byte b = true) bs /\ utf8_decode bs = Some s.
Proof.
  induction s as [|c s IH]; intros Hs.
  - exists []. repeat split; constructor.
  - cbn [is_text forallb] in Hs. apply andb_true_iff in Hs as [Hc Hs].
    destruct (IH Hs) as (bs' & E' & B' & D').
    destruct (utf8_char_roundtrip c Hc) as (bs & E & B & D).
    exists (bs ++ bs'). cbn [utf8_encode]. rewrite E, E'.
    split; [reflexivity|]. split; [apply Forall_app; auto|].
    rewrite D, D'. reflexivity.
Qed.

(** The encoder fails exactly on a string holding a surrogate, for
    strings of code points. *)
Lemma utf8_encode_surrogate s c :
  In c s -> is_surrogate c = true -> utf8_encode s = None.
Proof.
  induction s as [|d s IH]; intros Hin Hc; [destruct Hin|].
  cbn [utf8_encode]. destruct Hin as [->|Hin].
  - unfold utf8_encode_char. unfold is_surrogate in Hc. zbool.
    test_false. test_false. test_true.
    unfold is_surrogate.
    replace ((0xD800 <=? c) && (c <=? 0xDFFF)) with true; [reflexivity|].
    symmetry. apply andb_true_intro. split; apply Z.leb_le; lia.
  - rewrite (IH Hin Hc). destruct (utf8_encode_char d); reflexivity.
Qed.

End Utf8Strings.

(** ** JSON: what is dumped loads to itself *)

Section JsonRoundtrip.

Import Json.

Lemma is_text_app s t : is_text (s ++ t) = is_text s && is_text t.
Proof. apply forallb_app. Qed.

Lemma hex_digit_scalar d : 0 <= d < 16 -> is_scalar (hex_digit d) = true.
Proof.
  intros H. unfold hex_digit, is_scalar, is_surrogate.
  destruct (d <? 10) eqn:E; zbool;
    repeat (apply andb_true_intro; split); try apply negb_true_iff;
    try apply andb_false_iff; rewrite ?Z.leb_le, ?Z.leb_gt; lia.
Qed.

Lemma land_15 x : 0 <= Z.land x 0xF < 16.
Proof.
  change 0xF with (Z.ones 4). rewrite Z.land_ones by lia.
  apply Z.mod_pos_bound. reflexivity.
Qed.

Lemma escape_char_text c : is_scalar c = true -> is_text (escape_char c) = true.
Proof.
  intros Hc. unfold escape_char.
  repeat match goal with
  | |- context [if ?b then _ else _] => destruct b; [reflexivity|]
  end.
  destruct ((0 <=? c) && (c <? 0x20)).
  - cbn [is_text forallb hex4]. rewrite !hex_digit_scalar by apply land_15. reflexivity.
  - cbn [is_text forallb]. rewrite Hc. reflexivity.
Qed.

Lemma encode_basestring_text s :
  is_text s = true -> is_text (encode_basestring s) = true.
Proof.
  intros Hs. unfold encode_basestring.
  change (QUOTE :: flat_map escape_char s ++ [QUOTE])
    with ([QUOTE] ++ flat_map escape_char s ++ [QUOTE]).
  rewrite !is_text_app.
  assert (is_text (flat_map escape_char s) = true) as ->.
  { induction s as [|c s IH]; [reflexivity|].
    cbn [is_text forallb] in Hs. apply andb_true_iff in Hs as [Hc Hs].
    cbn [flat_map]. rewrite is_text_app, escape_char_text, IH by assumption.
    reflexivity. }
  reflexivity.
Qed.

Lemma iterencode_items_text buf lst :
  is_text buf = true -> Forall (fun s => is_text s = true) lst ->
  is_text (iterencode_items buf lst) = true.
Proof.
  intros Hb Hl. revert buf Hb.
  induction Hl as [|v lst Hv Hl IH]; intros buf Hb; [reflexivity|].
  cbn [iterencode_items]. rewrite !is_text_app, Hb, encode_basestring_text by assumption.
  rewrite IH by reflexivity. reflexivity.
Qed.

Lemma dumps_text lst :
  Forall (fun s => is_text s = true) lst -> is_text (dumps lst) = true.
Proof.
  intros Hl. unfold dumps, iterencode_list. destruct lst as [|v lst]; [reflexivity|].
  rewrite is_text_app, iterencode_items_text by (auto; reflexivity). reflexivity.
Qed.

(** *** The string scanner on an encoded string *)

Lemma scanstring_plain c r :
  c <> QUOTE -> c <> BACKSLASH -> ~ (0 <= c < 0x20) ->
  scanstring (c :: r) = push c (scanstring r).
Proof.
  intros Hq Hb Hc. cbn [scanstring].
  destruct (c =? QUOTE) eqn:E1; [zbool; contradiction|].
  destruct (c =? BACKSLASH) eqn:E2; [zbool; contradiction|].
  destruct ((0 <=? c) && (c <? 0x20)) eqn:E3; [zbool; lia|].
  reflexivity.
Qed.

Lemma scanstring_control c r :
  0 <= c < 0x20 -> scanstring (escape_char c ++ r) = push c (scanstring r).
Proof.
  intros Hc.
  assert (exists n, (n < 32)%nat /\ c = Z.of_nat n) as (n & Hn & ->)
    by (exists (Z.to_nat c); lia).
  clear Hc. do 32 (destruct n as [|n]; [reflexivity|]). lia.
Qed.

Lemma scanstring_escape_char c r :
  scanstring (escape_char c ++ r) = push c (scanstring r).
Proof.
  destruct (Z.eq_dec c BACKSLASH) as [->|Hb]; [reflexivity|].
  destruct (Z.eq_dec c QUOTE) as [->|Hq]; [reflexivity|].
  destruct (Z_lt_dec c 0) as [Hneg|Hneg].
  - unfold escape_char.
    repeat match goal with
    | |- context [if ?b then _ else _] =>
        let E := fresh "E" in
        destruct b eqn:E;
          [exfalso; zbool; unfold BACKSLASH, QUOTE in *; lia | clear E]
    end.
    apply scanstring_plain; auto. lia.
  - destruct (Z_lt_dec c 0x20) as [Hlt|Hge].
    + apply scanstring_control. lia.
    + unfold escape_char.
      repeat match goal with
      | |- context [if ?b then _ else _] =>
          let E := fresh "E" in
          destruct b eqn:E;
            [exfalso; zbool; unfold BACKSLASH, QUOTE in *; lia | clear E]
      end.
      apply scanstring_plain; auto. lia.
Qed.

Lemma scanstring_encoded s rest :
  scanstring (flat_map escape_char s ++ QUOTE :: rest) = Some (s, rest).
Proof.
  induction s as [|c s IH]; [reflexivity|].
  cbn [flat_map]. rewrite <- app_assoc, scanstring_escape_char, IH. reflexivity.
Qed.

End JsonRoundtrip.

Section JsonArrays.

Import Json.

Lemma iterencode_items_length lst :
  (length lst <= length (iterencode_items item_separator lst))%nat.
Proof.
  induction lst as [|v lst IH]; [reflexivity|].
  cbn [iterencode_items]. rewrite !length_app. cbn [length item_separator]. lia.
Qed.

Lemma array_items_encoded vs : forall v fuel rest,
  (length vs < fuel)%nat ->
  array_items fuel
    (encode_basestring v ++ iterencode_items item_separator vs ++ RBRACKET :: rest)
  = Some (v :: vs, rest).
Proof.
  induction vs as [|v' vs IH]; intros v fuel rest Hfuel;
    (destruct fuel as [|fuel]; [cbn [length] in Hfuel; lia|]).
  - cbn [iterencode_items app]. unfold encode_basestring.
    cbn [app array_items]. change (QUOTE =? QUOTE) with true. cbv iota.
    rewrite <- app_assoc. cbn [app]. rewrite scanstring_encoded. reflexivity.
  - cbn [iterencode_items]. unfold encode_basestring at 1.
    cbn [app array_items]. change (QUOTE =? QUOTE) with true. cbv iota.
    rewrite <- !app_assoc. cbn [app]. rewrite scanstring_encoded.
    unfold item_separator. cbn [app skip_ws].
    change (is_ws COMMA) with false. cbv iota.
    change (COMMA =? RBRACKET) with false. change (COMMA =? COMMA) with true.
    change (is_ws SPACE) with true. cbv iota.
    assert (forall t, skip_ws (SPACE :: encode_basestring v' ++ t)
                      = encode_basestring v' ++ t) as -> by reflexivity.
    change [COMMA; SPACE] with item_separator.
    rewrite (IH v' fuel rest) by (cbn [length] in Hfuel; lia). reflexivity.
Qed.

(** What [dumps] gives, [loads] reads back, for every list of strings of
    code points. *)
Lemma loads_dumps lst : loads (dumps lst) = Some lst.
Proof.
  unfold dumps, iterencode_list. destruct lst as [|v vs]; [reflexivity|].
  cbn [iterencode_items app]. unfold loads.
  cbn [skip_ws]. change (is_ws LBRACKET) with false. cbv iota.
  change (LBRACKET =? LBRACKET) with true. cbv iota.
  rewrite <- !app_assoc. unfold JSONArray.
  assert (forall t, skip_ws (encode_basestring v ++ t) = encode_basestring v ++ t) as E
    by reflexivity.
  rewrite !E. unfold encode_basestring at 1. cbn [app].
  change (QUOTE =? RBRACKET) with false. cbv iota.
  change (QUOTE :: flat_map escape_char v ++ [QUOTE] ++
            iterencode_items item_separator vs ++ [RBRACKET])
    with (encode_basestring v ++ iterencode_items item_separator vs ++ [RBRACKET]).
  rewrite array_items_encoded; [reflexivity|].
  pose proof (iterencode_items_length vs).
  repeat (rewrite ?length_app, ?length_cons; cbn [length]). lia.
Qed.

End JsonArrays.

(** ** The function: what a call does to the world *)

Section Calls.

Variables (lst : loc) (path : string) (w : world).

Lemma writable_resolve : writable w path = true <-> resolve w path = None.
Proof.
  unfold writable. destruct (resolve w path); split; intros H;
    try discriminate; reflexivity.
Qed.

(** The destination can be opened and the text can be encoded: the file
    holds the encoding and the call returns [None]. *)
Lemma convert_success data :
  writable w path = true ->
  utf8_encode (Json.dumps (w_lists w lst)) = Some data ->
  convert_list_to_json lst (Some path) w = (written w path data, Returned PyNone).
Proof.
  intros Hw He. apply writable_resolve in Hw.
  unfold convert_list_to_json, with_open_wb, bind, open_wb. cbn [default]. unfold id.
  rewrite Hw.
  unfold finally, json_dumps, str_encode_utf8. cbn [w_lists log set_files].
  rewrite He. unfold ret, file_write, file_close, written, log, set_files.
  cbn [f_path w_files w_dirs w_lists w_next w_trace].
  rewrite lookup_insert_eq. cbn [default app]. rewrite insert_insert_eq.
  rewrite <- !app_assoc. reflexivity.
Qed.

(** The destination can be opened but the text holds a surrogate: the
    file is left empty and the call raises. *)
Lemma convert_encode_error :
  writable w path = true ->
  utf8_encode (Json.dumps (w_lists w lst)) = None ->
  convert_list_to_json lst (Some path) w =
    (World (w_dirs w) (<[path := []]> (w_files w)) (w_lists w) (w_next w)
       (w_trace w ++ [EvOpen path; EvClose path]),
     Raised UnicodeEncodeError).
Proof.
  intros Hw He. apply writable_resolve in Hw.
  unfold convert_list_to_json, with_open_wb, bind, open_wb. cbn [default]. unfold id.
  rewrite Hw.
  unfold finally, json_dumps, str_encode_utf8. cbn [w_lists log set_files].
  rewrite He. unfold raise, file_close, log, set_files.
  cbn [f_path w_files w_dirs w_lists w_next w_trace].
  rewrite <- !app_assoc. reflexivity.
Qed.

(** The destination cannot be opened: the call raises what [open] raises
    and the world is as before. *)
Lemma convert_open_error e :
  resolve w path = Some e ->
  convert_list_to_json lst (Some path) w = (w, Raised e).
Proof.
  intros He. unfold convert_list_to_json, with_open_wb, bind, open_wb. cbn [default]. unfold id.
  rewrite He. reflexivity.
Qed.

(** A call that returns has opened the destination and encoded the text. *)
Lemma convert_returned w' v :
  convert_list_to_json lst (Some path) w = (w', Returned v) ->
  exists data,
    writable w path = true /\
    utf8_encode (Json.dumps (w_lists w lst)) = Some data /\
    w' = written w path data /\ v = PyNone.
Proof.
  intros H.
  destruct (resolve w path) as [e|] eqn:Hr.
  - rewrite (convert_open_error e Hr) in H. inversion H.
  - apply writable_resolve in Hr.
    destruct (utf8_encode (Json.dumps (w_lists w lst))) as [data|] eqn:He.
    + rewrite (convert_success data Hr He) in H. inversion H. eauto.
    + rewrite (convert_encode_error Hr He) in H. inversion H.
Qed.

End Calls.

(** *** What [open] decides from the path *)

Section Paths.

Variables (dirs : gset string) (abs : bool).

(** A directory on the way that does not exist stops the walk. *)
Lemma walk_missing_ancestor trailing d : forall ns stack,
  In d (ancestors_from abs stack ns) -> d ∉ dirs ->
  walk dirs abs trailing stack ns = WTooLong \/
  exists key, walk dirs abs trailing stack ns = WMissing key.
Proof.
  induction ns as [|n rest IH]; intros stack Hin Hd; [destruct Hin|].
  cbn [ancestors_from walk] in *.
  destruct (String.eqb n "."); [apply IH; assumption|].
  destruct (String.eqb n ".."); [apply IH; assumption|].
  destruct rest as [|n' rest]; [destruct Hin|].
  destruct (NAME_MAX <? String.length n)%nat; [left; reflexivity|].
  destruct Hin as [<-|Hin].
  - rewrite bool_decide_eq_false_2 by assumption. right. eauto.
  - destruct (bool_decide (key_of abs (n :: stack) ∈ dirs)); [|right; eauto].
    apply IH; assumption.
Qed.


End Paths.


Lemma resolve_missing_ancestor (w : world) (path d : string) :
  has_nul path = false -> In d (ancestors path) -> d ∉ w_dirs w ->
  exists e, resolve w path = Some e /\
    (e = FileNotFoundError path \/ e = NotADirectoryError path \/
     e = OSError_ENAMETOOLONG path).
Proof.
  intros Hn Hin Hd. unfold resolve. rewrite Hn.
  destruct (String.eqb path ""); [eauto|].
  destruct (PATH_MAX <=? String.length path)%nat; [eauto 6|].
  destruct (walk_missing_ancestor (w_dirs w) (is_absolute path)
              (ends_with_slash path) d (names path) [] Hin Hd) as [->|[key ->]].
  - eauto 6.
  - destruct (bool_decide _); eauto 6.
Qed.


(** Whether a path can be opened depends on the directories only. *)
Lemma writable_same_dirs (w w1 : world) (path : string) :
  w_dirs w1 = w_dirs w -> writable w1 path = writable w path.
Proof.
  intros Hd. unfold writable, resolve. rewrite Hd.
  destruct (has_nul path); [reflexivity|].
  destruct (String.eqb path ""); [reflexivity|].
  destruct (PATH_MAX <=? String.length path)%nat; [reflexivity|].
  destruct (walk (w_dirs w) (is_absolute path) (ends_with_slash path) [] (names path));
    try reflexivity.
  destruct (bool_decide (key ∈ dom (w_files w1))),
           (bool_decide (key ∈ dom (w_files w))); reflexivity.
Qed.

(** Text values are always encoded. *)
Lemma dumps_encoded items :
  all_text items = true ->
  exists data,
    utf8_encode (Json.dumps items) = Some data /\
    Forall (fun b => is_byte b = true) data /\
    utf8_decode data = Some (Json.dumps items).
Proof.
  intros H. apply utf8_roundtrip, dumps_text.
  unfold all_text in H. rewrite forallb_forall in H.
  apply List.Forall_forall. exact H.
Qed.

(** What reaches the file is made of bytes. *)
Lemma dumps_data_bytes items data :
  all_text items = true ->
  utf8_encode (Json.dumps items) = Some data ->
  Forall (fun b => is_byte b = true) data.
Proof.
  intros Ht He. destruct (dumps_encoded items Ht) as (data' & He' & Hb & _).
  congruence.
Qed.

Lemma written_files w path data :
  w_files (written w path data) !! path = Some data.
Proof. unfold written. cbn [w_files]. apply lookup_insert_eq. Qed.

Lemma written_read_json w path data items :
  utf8_decode data = Some (Json.dumps items) ->
  read_json (written w path data) path = Some items.
Proof.
  intros H. unfold read_json, read_text. rewrite written_files, H.
  apply loads_dumps.
Qed.

(** ** The properties of the converter *)

(** C1. Round-trip law: for every sequence of text values, calling
    [convert_list_to_json] on it and then reading the destination file,
    decoding it as UTF-8 and parsing it as JSON gives the same elements in
    the same order; quotes, backslashes, control characters and non-ASCII
    characters included.  A text value is a string of Unicode scalar
    values, and the destination is one that can be opened. *)
Theorem roundtrip_law (w : world) (lst : loc) (dest : string) (items : list text) :
  w_lists w lst = items ->
  all_text items = true ->
  writable w dest = true ->
  exists w',
    convert_list_to_json lst (Some dest) w = (w', Returned PyNone) /\
    read_json w' dest = Some items.
Proof.
  intros Hl Ht Hw.
  destruct (dumps_encoded items Ht) as (data & He & _ & Hd).
  exists (written w dest data). split.
  - apply convert_success; [assumption|]. rewrite Hl. exact He.
  - apply written_read_json. exact Hd.
Qed.

Lemma roundtrip_law_witness :
  (w_lists (demo_world tricky_items) 0%nat = tricky_items /\
   all_text tricky_items = true /\
   writable (demo_world tricky_items) "out.json" = true) /\
  exists w',
    convert_list_to_json 0%nat (Some "out.json"%string) (demo_world tricky_items)
      = (w', Returned PyNone) /\
    read_json w' "out.json" = Some tricky_items.
Proof.
  split.
  - repeat split; vm_compute; reflexivity.
  - apply (roundtrip_law (demo_world tricky_items) 0%nat "out.json" tricky_items);
      vm_compute; reflexivity.
Defined.

(** C2, as the code has it.  For the two-element input [["A", "Å"]] the
    file holds eleven bytes which, decoded as UTF-8, are the ten-character
    text of the JSON array: one space after the comma, no surrounding
    whitespace, no trailing newline. *)
Theorem two_items_file (w : world) (lst : loc) (dest : string) :
  w_lists w lst = two_items ->
  writable w dest = true ->
  exists w',
    convert_list_to_json lst (Some dest) w = (w', Returned PyNone) /\
    w_files w' !! dest =
      Some [0x5B; 0x22; 0x41; 0x22; 0x2C; 0x20; 0x22; 0xC3; 0x85; 0x22; 0x5D] /\
    read_text w' dest = Some two_items_text /\
    length two_items_text = 10%nat.
Proof.
  intros Hl Hw. eexists. split; [|split; [|split]].
  - apply convert_success; [assumption|]. rewrite Hl. reflexivity.
  - apply written_files.
  - unfold read_text. rewrite written_files. reflexivity.
  - reflexivity.
Qed.

Lemma two_items_file_witness :
  (w_lists (demo_world two_items) 0%nat = two_items /\
   writable (demo_world two_items) "out.json" = true) /\
  exists w',
    convert_list_to_json 0%nat (Some "out.json"%string) (demo_world two_items)
      = (w', Returned PyNone) /\
    w_files w' !! "out.json"%string =
      Some [0x5B; 0x22; 0x41; 0x22; 0x2C; 0x20; 0x22; 0xC3; 0x85; 0x22; 0x5D] /\
    read_text w' "out.json" = Some two_items_text /\
    length two_items_text = 10%nat.
Proof.
  split.
  - split; vm_compute; reflexivity.
  - apply (two_items_file (demo_world two_items) 0%nat "out.json");
      vm_compute; reflexivity.
Defined.

(** C2, as stated, fails: the text read back is the text of the array, but
    it has ten characters, not nine. *)
Lemma two_items_not_nine_characters :
  ~ exists w' t,
      convert_list_to_json 0%nat (Some "out.json"%string) (demo_world two_items)
        = (w', Returned PyNone) /\
      read_text w' "out.json" = Some t /\
      t = two_items_text /\
      length t = 9%nat.
Proof.
  intros (w' & t & _ & _ & -> & Hlen). vm_compute in Hlen. discriminate Hlen.
Qed.

(** *** The bytes of the array *)

Section Layout.

Import Json.

Lemma encode_escape_char c :
  is_scalar c = true -> utf8_encode (escape_char c) = Some (char_output c).
Proof.
  intros Hc. unfold char_output.
  destruct (utf8_roundtrip _ (escape_char_text c Hc)) as (bs & -> & _).
  reflexivity.
Qed.

Lemma encode_escaped s :
  is_text s = true ->
  utf8_encode (flat_map escape_char s) = Some (flat_map char_output s).
Proof.
  induction s as [|c s IH]; intros Hs; [reflexivity|].
  cbn [is_text forallb] in Hs. apply andb_true_iff in Hs as [Hc Hs].
  cbn [flat_map]. rewrite utf8_encode_app, encode_escape_char, IH by assumption.
  reflexivity.
Qed.

Lemma encode_basestring_bytes s :
  is_text s = true -> utf8_encode (encode_basestring s) = Some (item_output s).
Proof.
  intros Hs. unfold encode_basestring, item_output.
  change (QUOTE :: flat_map escape_char s ++ [QUOTE])
    with ([QUOTE] ++ flat_map escape_char s ++ [QUOTE]).
  rewrite !utf8_encode_app, encode_escaped by assumption. reflexivity.
Qed.

Lemma encode_items buf bbuf v vs :
  utf8_encode buf = Some bbuf ->
  all_text (v :: vs) = true ->
  utf8_encode (iterencode_items buf (v :: vs)) =
    Some (bbuf ++ join [COMMA; SPACE] (map item_output (v :: vs))).
Proof.
  revert buf bbuf v. induction vs as [|v' vs IH]; intros buf bbuf v Hb Ht;
    cbn [all_text forallb] in Ht; apply andb_true_iff in Ht as [Hv Ht].
  - cbn [iterencode_items map join].
    rewrite !utf8_encode_app, Hb, encode_basestring_bytes by assumption.
    cbn [utf8_encode]. rewrite app_nil_r. reflexivity.
  - change (iterencode_items buf (v :: v' :: vs))
      with (buf ++ encode_basestring v ++ iterencode_items item_separator (v' :: vs)).
    rewrite !utf8_encode_app, Hb, encode_basestring_bytes by assumption.
    rewrite (IH item_separator [COMMA; SPACE] v' eq_refl Ht).
    reflexivity.
Qed.

(** The bytes of the file: the elements between brackets, a comma and a
    space between two of them. *)
Lemma dumps_bytes items :
  all_text items = true ->
  utf8_encode (dumps items) =
    Some ([LBRACKET] ++ join [COMMA; SPACE] (map item_output items) ++ [RBRACKET]).
Proof.
  intros Ht. unfold dumps, iterencode_list. destruct items as [|v vs]; [reflexivity|].
  rewrite utf8_encode_app, (encode_items [LBRACKET] [LBRACKET] v vs eq_refl Ht).
  change (utf8_encode [RBRACKET]) with (Some [RBRACKET]). cbv iota.
  rewrite <- app_assoc. reflexivity.
Qed.

(** A character outside ASCII is not escaped: its bytes in the file are
    its UTF-8 encoding, two to four bytes above 0x7F. *)
Lemma char_output_non_ascii c :
  is_scalar c = true -> 0x80 <= c ->
  escape_char c = [c] /\
  utf8_encode_char c = Some (char_output c) /\
  Forall (fun b => 0x80 <= b < 0x100) (char_output c).
Proof.
  intros Hs Hc.
  assert (escape_char c = [c]) as E.
  { unfold escape_char.
    repeat match goal with
    | |- context [if ?b then _ else _] =>
        let E := fresh "E" in
        destruct b eqn:E;
          [exfalso; zbool; unfold BACKSLASH, QUOTE in *; lia | clear E]
    end.
    reflexivity. }
  split; [exact E|]. unfold char_output. rewrite E. cbn [utf8_encode].
  unfold is_scalar in Hs. zbool.
  destruct (Z.lt_ge_cases c 0x800) as [R2|R2];
    [|destruct (Z.lt_ge_cases c 0x10000) as [R3|R3]].
  - rewrite encode_char_2 by lia. cbn [default app]. split; [reflexivity|].
    repeat constructor; Z.div_mod_to_equations; lia.
  - rewrite encode_char_3 by (try lia; assumption). cbn [default app].
    split; [reflexivity|]. repeat constructor; Z.div_mod_to_equations; lia.
  - rewrite encode_char_4 by lia. cbn [default app]. split; [reflexivity|].
    repeat constructor; Z.div_mod_to_equations; lia.
Qed.

Lemma utf8_encode_ascii s : forallb is_ascii s = true -> utf8_encode s = Some s.
Proof.
  induction s as [|c s IH]; intros Hs; [reflexivity|].
  cbn [forallb] in Hs. apply andb_true_iff in Hs as [Hc Hs].
  cbn [utf8_encode]. rewrite (IH Hs), encode_char_1; [reflexivity|].
  unfold is_ascii in Hc. zbool. lia.
Qed.

Lemma escape_char_ascii c :
  is_ascii c = true -> forallb is_ascii (escape_char c) = true.
Proof.
  intros Hc.
  assert (forallb (fun c => forallb is_ascii (escape_char c))
            (map Z.of_nat (seq 0 128)) = true) as Hall by (vm_compute; reflexivity).
  apply (forall_below (fun c => forallb is_ascii (escape_char c)) 128 Hall).
  unfold is_ascii in Hc. zbool. lia.
Qed.

(** A scalar value outside ASCII is encoded as the standard says. *)
Lemma encode_char_raw c :
  is_scalar c = true -> 0x80 <= c -> utf8_encode_char c = Some (raw_utf8 c).
Proof.
  intros Hs Hc. unfold is_scalar in Hs. zbool. unfold raw_utf8.
  destruct (Z.lt_ge_cases c 0x800) as [R2|R2];
    [|destruct (Z.lt_ge_cases c 0x10000) as [R3|R3]].
  - rewrite encode_char_2 by lia. test_false. test_true. reflexivity.
  - rewrite encode_char_3 by (try lia; assumption).
    test_false. test_false. test_true. reflexivity.
  - rewrite encode_char_4 by lia. test_false. test_false. test_false. reflexivity.
Qed.

(** The standard form is read back by the strict decoder, has two to
    four bytes outside ASCII, all above 0x7F. *)
Lemma raw_utf8_decodes c :
  is_scalar c = true -> 0x80 <= c ->
  utf8_decode (raw_utf8 c) = Some [c] /\
  (2 <= length (raw_utf8 c) <= 4)%nat /\
  Forall (fun b => 0x80 <= b < 0x100) (raw_utf8 c).
Proof.
  intros Hs Hc. unfold is_scalar in Hs. zbool. unfold raw_utf8.
  destruct (Z.lt_ge_cases c 0x800) as [R2|R2];
    [|destruct (Z.lt_ge_cases c 0x10000) as [R3|R3]].
  - test_false. test_true. split; [|split].
    + rewrite decode_2 by (Z.div_mod_to_equations; lia). cbn [utf8_decode fmap option_fmap option_map].
      f_equal. f_equal. Z.div_mod_to_equations; lia.
    + cbn [length]. lia.
    + repeat constructor; Z.div_mod_to_equations; lia.
  - test_false. test_false. test_true. split; [|split].
    + assert (c / 0x1000 * 4096 + c / 0x40 mod 0x40 * 64 + c mod 0x40 = c) as E
        by (Z.div_mod_to_equations; lia).
      rewrite decode_3; rewrite ?E; try assumption; try lia;
        try (Z.div_mod_to_equations; lia).
      reflexivity.
    + cbn [length]. lia.
    + repeat constructor; Z.div_mod_to_equations; lia.
  - test_false. test_false. test_false. split; [|split].
    + assert (c / 0x40000 * 262144 + c / 0x1000 mod 0x40 * 4096
              + c / 0x40 mod 0x40 * 64 + c mod 0x40 = c) as E
        by (Z.div_mod_to_equations; lia).
      rewrite decode_4; rewrite ?E; try lia; try (Z.div_mod_to_equations; lia).
      reflexivity.
    + cbn [length]. lia.
    + repeat constructor; Z.div_mod_to_equations; lia.
Qed.

(** What the encoder gives for a character is what the file is to hold
    for it. *)
Lemma char_output_file_char c :
  is_scalar c = true -> char_output c = file_char c.
Proof.
  intros Hs. unfold char_output, file_char.
  destruct (0x80 <=? c) eqn:Hc; zbool.
  - destruct (char_output_non_ascii c Hs Hc) as (-> & _ & _).
    cbn [utf8_encode]. rewrite (encode_char_raw c Hs Hc). cbn [default].
    apply app_nil_r.
  - assert (is_ascii c = true) as Ha.
    { unfold is_scalar in Hs. unfold is_ascii. zbool.
      apply andb_true_intro. split; [apply Z.leb_le|apply Z.ltb_lt]; lia. }
    rewrite (utf8_encode_ascii _ (escape_char_ascii c Ha)). reflexivity.
Qed.

Lemma item_output_file_item s :
  is_text s = true -> item_output s = file_item s.
Proof.
  intros Hs. unfold item_output, file_item. f_equal. f_equal.
  induction s as [|c s IH]; [reflexivity|].
  cbn [is_text forallb] in Hs. apply andb_true_iff in Hs as [Hc Hs].
  cbn [flat_map]. rewrite (char_output_file_char c Hc), (IH Hs). reflexivity.
Qed.

(** The bytes of the file, stated without the encoder. *)
Lemma dumps_file_bytes items :
  all_text items = true ->
  utf8_encode (dumps items) =
    Some ([LBRACKET] ++ join [COMMA; SPACE] (map file_item items) ++ [RBRACKET]).
Proof.
  intros Ht. rewrite (dumps_bytes items Ht). do 4 f_equal.
  unfold all_text in Ht. rewrite forallb_forall in Ht.
  apply map_ext_in. intros s Hs. apply item_output_file_item. apply Ht. exact Hs.
Qed.

End Layout.

(** C3. For every input sequence of text values, the bytes written are
    the bracketed, comma-and-space separated elements, each between double
    quotes, in which every character outside ASCII stands as its raw UTF-8
    form: the two to four bytes of the standard, all above 0x7F, which the
    strict decoder reads back as the character.  No backslash and no
    [\uXXXX] sequence stands for it. *)
Theorem non_ascii_raw_utf8 (w : world) (lst : loc) (dest : string) (items : list text) :
  w_lists w lst = items ->
  all_text items = true ->
  writable w dest = true ->
  exists w',
    convert_list_to_json lst (Some dest) w = (w', Returned PyNone) /\
    w_files w' !! dest =
      Some ([LBRACKET] ++ join [COMMA; SPACE] (map file_item items) ++ [RBRACKET]) /\
    forall s c, In s items -> In c s -> 0x80 <= c ->
      file_char c = raw_utf8 c /\
      utf8_decode (raw_utf8 c) = Some [c] /\
      (2 <= length (raw_utf8 c) <= 4)%nat /\
      Forall (fun b => 0x80 <= b < 0x100) (raw_utf8 c).
Proof.
  intros Hl Ht Hw. eexists. split; [|split].
  - apply convert_success; [assumption|]. rewrite Hl. apply dumps_file_bytes. exact Ht.
  - apply written_files.
  - intros s c Hs Hc Hge.
    assert (is_scalar c = true) as Hsc.
    { unfold all_text in Ht. rewrite forallb_forall in Ht.
      specialize (Ht s Hs). unfold is_text in Ht. rewrite forallb_forall in Ht.
      apply Ht. exact Hc. }
    split; [|apply raw_utf8_decodes; assumption].
    unfold file_char. destruct (0x80 <=? c) eqn:E; [reflexivity|]. zbool. lia.
Qed.

Lemma non_ascii_raw_utf8_witness :
  (w_lists (demo_world non_ascii_items) 0%nat = non_ascii_items /\
   all_text non_ascii_items = true /\
   writable (demo_world non_ascii_items) "out.json" = true) /\
  (exists w',
    convert_list_to_json 0%nat (Some "out.json"%string) (demo_world non_ascii_items)
      = (w', Returned PyNone) /\
    w_files w' !! "out.json"%string =
      Some ([LBRACKET] ++ join [COMMA; SPACE] (map file_item non_ascii_items)
              ++ [RBRACKET]) /\
    forall s c, In s non_ascii_items -> In c s -> 0x80 <= c ->
      file_char c = raw_utf8 c /\
      utf8_decode (raw_utf8 c) = Some [c] /\
      (2 <= length (raw_utf8 c) <= 4)%nat /\
      Forall (fun b => 0x80 <= b < 0x100) (raw_utf8 c)) /\
  w_files (fst (convert_list_to_json 0%nat (Some "out.json"%string)
                  (demo_world non_ascii_items))) !! "out.json"%string =
    Some ([0x5B; 0x22; 0xC3; 0x85] ++ string_bytes "land Islands" ++ [0x22; 0x2C; 0x20; 0x22]
          ++ string_bytes "C" ++ [0xC3; 0xB4] ++ string_bytes "te d'Ivoire"
          ++ [0x22; 0x2C; 0x20; 0x22]
          ++ string_bytes "Cura" ++ [0xC3; 0xA7] ++ string_bytes "ao" ++ [0x22; 0x5D]).
Proof.
  split; [|split].
  - repeat split; vm_compute; reflexivity.
  - apply (non_ascii_raw_utf8 (demo_world non_ascii_items) 0%nat "out.json"
             non_ascii_items); vm_compute; reflexivity.
  - vm_compute. reflexivity.
Defined.

(** The three names of the specification, in the file as in the source
    text of the script. *)
Example non_ascii_items_bytes :
  utf8_encode (Json.dumps non_ascii_items) =
    Some ([LBRACKET] ++ dq (string_bytes "Åland Islands") ++ [COMMA; SPACE]
          ++ dq (string_bytes "Côte d'Ivoire") ++ [COMMA; SPACE]
          ++ dq (string_bytes "Curaçao") ++ [RBRACKET]).
Proof. vm_compute. reflexivity. Qed.

(** C4. The empty sequence gives a file of exactly the two bytes 0x5B
    0x5D, the text of the empty array. *)
Theorem empty_list_file (w : world) (lst : loc) (dest : string) :
  w_lists w lst = [] ->
  writable w dest = true ->
  exists w',
    convert_list_to_json lst (Some dest) w = (w', Returned PyNone) /\
    w_files w' !! dest = Some [0x5B; 0x5D] /\
    read_text w' dest = Some (literal "[]").
Proof.
  intros Hl Hw. eexists. split; [|split].
  - apply convert_success; [assumption|]. rewrite Hl. reflexivity.
  - apply written_files.
  - unfold read_text. rewrite written_files. reflexivity.
Qed.

Lemma empty_list_file_witness :
  (w_lists (demo_world []) 0%nat = [] /\
   writable (demo_world []) "out.json" = true) /\
  exists w',
    convert_list_to_json 0%nat (Some "out.json"%string) (demo_world [])
      = (w', Returned PyNone) /\
    w_files w' !! "out.json"%string = Some [0x5B; 0x5D] /\
    read_text w' "out.json" = Some (literal "[]").
Proof.
  split.
  - split; vm_compute; reflexivity.
  - apply (empty_list_file (demo_world []) 0%nat "out.json"); vm_compute; reflexivity.
Defined.

(** C5. The input [["Afghanistan", "Albania"]] written to [out.json]
    gives a file whose contents are exactly the text of that array: the
    bytes are the codes of its characters, and they decode to it. *)
Theorem afghanistan_albania_file (w : world) (lst : loc) :
  w_lists w lst = afghanistan_albania ->
  writable w "out.json" = true ->
  exists w',
    convert_list_to_json lst (Some "out.json"%string) w = (w', Returned PyNone) /\
    w_files w' !! "out.json"%string = Some afghanistan_albania_text /\
    read_text w' "out.json" = Some afghanistan_albania_text.
Proof.
  intros Hl Hw. eexists. split; [|split].
  - apply convert_success; [assumption|]. rewrite Hl. reflexivity.
  - apply written_files.
  - unfold read_text. rewrite written_files. reflexivity.
Qed.

Lemma afghanistan_albania_file_witness :
  (w_lists (demo_world afghanistan_albania) 0%nat = afghanistan_albania /\
   writable (demo_world afghanistan_albania) "out.json" = true) /\
  exists w',
    convert_list_to_json 0%nat (Some "out.json"%string) (demo_world afghanistan_albania)
      = (w', Returned PyNone) /\
    w_files w' !! "out.json"%string = Some afghanistan_albania_text /\
    read_text w' "out.json" = Some afghanistan_albania_text.
Proof.
  split.
  - split; vm_compute; reflexivity.
  - apply (afghanistan_albania_file (demo_world afghanistan_albania) 0%nat);
      vm_compute; reflexivity.
Defined.

(** What a call leaves of the world when the destination can be opened,
    whatever its outcome: the directories and the heap. *)
Lemma convert_keeps (w : world) (lst : loc) (path : string) (w1 : world) (r : outcome pyvalue) :
  convert_list_to_json lst (Some path) w = (w1, r) ->
  w_dirs w1 = w_dirs w /\ w_lists w1 = w_lists w.
Proof.
  intros H. destruct (resolve w path) as [e|] eqn:Hr.
  - rewrite (convert_open_error lst path w e Hr) in H. inversion H. auto.
  - apply writable_resolve in Hr.
    destruct (utf8_encode (Json.dumps (w_lists w lst))) as [data|] eqn:He.
    + rewrite (convert_success lst path w data Hr He) in H. inversion H. auto.
    + rewrite (convert_encode_error lst path w Hr He) in H. inversion H. auto.
Qed.

(** C6. Two calls on the same destination: whatever the first one wrote,
    after the second the file holds exactly the encoding of the second
    sequence, longer or shorter than the first; nothing is appended or
    merged. *)
Theorem second_call_overwrites
    (w : world) (lst1 lst2 : loc) (p : string) (w1 : world) (r1 : outcome pyvalue) :
  writable w p = true ->
  all_text (w_lists w lst2) = true ->
  convert_list_to_json lst1 (Some p) w = (w1, r1) ->
  exists w2 data,
    convert_list_to_json lst2 (Some p) w1 = (w2, Returned PyNone) /\
    utf8_encode (Json.dumps (w_lists w lst2)) = Some data /\
    w_files w2 !! p = Some data /\
    read_json w2 p = Some (w_lists w lst2).
Proof.
  intros Hw Ht H1.
  destruct (convert_keeps w lst1 p w1 r1 H1) as [Hd Hl].
  destruct (dumps_encoded _ Ht) as (data & He & _ & Hdec).
  assert (writable w1 p = true) as Hw1
    by (rewrite (writable_same_dirs w w1 p Hd); exact Hw).
  exists (written w1 p data), data. split; [|split; [|split]].
  - apply convert_success; [assumption|]. rewrite Hl. exact He.
  - exact He.
  - apply written_files.
  - apply written_read_json. exact Hdec.
Qed.

Lemma second_call_overwrites_witness :
  (writable two_lists_world "out.json" = true /\
   all_text (w_lists two_lists_world 1%nat) = true /\
   convert_list_to_json 0%nat (Some "out.json"%string) two_lists_world
     = (two_lists_world_written, Returned PyNone)) /\
  exists w2 data,
    convert_list_to_json 1%nat (Some "out.json"%string) two_lists_world_written
      = (w2, Returned PyNone) /\
    utf8_encode (Json.dumps (w_lists two_lists_world 1%nat)) = Some data /\
    w_files w2 !! "out.json"%string = Some data /\
    read_json w2 "out.json" = Some (w_lists two_lists_world 1%nat).
Proof.
  assert (writable two_lists_world "out.json" = true) as Hw
    by (vm_compute; reflexivity).
  assert (all_text (w_lists two_lists_world 1%nat) = true) as Ht
    by (vm_compute; reflexivity).
  assert (convert_list_to_json 0%nat (Some "out.json"%string) two_lists_world
            = (two_lists_world_written, Returned PyNone)) as H1
    by (vm_compute; reflexivity).
  split; [repeat split; assumption|].
  exact (second_call_overwrites two_lists_world 0%nat 1%nat "out.json"
           two_lists_world_written (Returned PyNone) Hw Ht H1).
Defined.

(** C7. When a directory on the way to the destination does not exist
    (the destination being a path: a name without null byte), the call
    fails with an error of the file system, [FileNotFoundError] or, when
    something else is in the way, [NotADirectoryError] or the [OSError] of
    a name too long, and the world is as before: no file is created, at
    the destination or elsewhere. *)
Theorem missing_directory_fails (w : world) (lst : loc) (dest d : string) :
  has_nul dest = false ->
  In d (ancestors dest) ->
  d ∉ w_dirs w ->
  exists e,
    convert_list_to_json lst (Some dest) w = (w, Raised e) /\
    filesystem_error e = true /\
    (e = FileNotFoundError dest \/ e = NotADirectoryError dest \/
     e = OSError_ENAMETOOLONG dest).
Proof.
  intros Hn Hin Hd.
  destruct (resolve_missing_ancestor w dest d Hn Hin Hd) as (e & Hr & He).
  exists e. split; [apply convert_open_error; exact Hr|]. split; [|exact He].
  destruct He as [->|[->| ->]]; reflexivity.
Qed.

Lemma missing_directory_fails_witness :
  (has_nul "exercises/countries.json" = false /\
   In "exercises"%string (ancestors "exercises/countries.json") /\
   "exercises"%string ∉ w_dirs (demo_world two_items)) /\
  (exists e,
    convert_list_to_json 0%nat (Some "exercises/countries.json"%string)
      (demo_world two_items) = (demo_world two_items, Raised e) /\
    filesystem_error e = true /\
    (e = FileNotFoundError "exercises/countries.json" \/
     e = NotADirectoryError "exercises/countries.json" \/
     e = OSError_ENAMETOOLONG "exercises/countries.json")) /\
  convert_list_to_json 0%nat (Some "exercises/countries.json"%string)
    (demo_world two_items)
    = (demo_world two_items, Raised (FileNotFoundError "exercises/countries.json")).
Proof.
  assert (has_nul "exercises/countries.json" = false) as Hn by reflexivity.
  assert (In "exercises"%string (ancestors "exercises/countries.json")) as Hin
    by (left; reflexivity).
  assert ("exercises"%string ∉ w_dirs (demo_world two_items)) as Hd
    by (apply (bool_decide_eq_false_1 ("exercises"%string ∈ w_dirs (demo_world two_items)));
        vm_compute; reflexivity).
  split; [repeat split; assumption|]. split.
  - exact (missing_directory_fails (demo_world two_items) 0%nat
             "exercises/countries.json" "exercises" Hn Hin Hd).
  - vm_compute. reflexivity.
Defined.

(** C8. A call without a file name writes to [countries.json], exactly as
    a call that names it; and no call gives a value: it returns [None] or
    raises. *)
Theorem default_destination_and_no_result (w : world) (lst : loc) (filename : option string) :
  convert_list_to_json lst None w
    = convert_list_to_json lst (Some "countries.json"%string) w /\
  (snd (convert_list_to_json lst filename w) = Returned PyNone \/
   exists e, snd (convert_list_to_json lst filename w) = Raised e).
Proof.
  split; [reflexivity|].
  assert (forall path,
    snd (convert_list_to_json lst (Some path) w) = Returned PyNone \/
    exists e, snd (convert_list_to_json lst (Some path) w) = Raised e) as H.
  { intros path.
    destruct (convert_list_to_json lst (Some path) w) as [w' [v|e]] eqn:E.
    - destruct (convert_returned lst path w w' v E) as (_ & _ & _ & _ & ->).
      left. reflexivity.
    - right. exists e. reflexivity. }
  destruct filename as [path|]; [apply H|apply (H "countries.json"%string)].
Qed.



(** The call is the last thing the module body does. *)
Lemma convert_then_none (lst : loc) (path : string) (w : world) :
  bind (convert_list_to_json lst (Some path)) (fun _ => ret PyNone) w
    = convert_list_to_json lst (Some path) w.
Proof.
  unfold bind at 1.
  destruct (convert_list_to_json lst (Some path) w) as [w' [v|e]] eqn:E; [|reflexivity].
  destruct (convert_returned lst path w w' v E) as (_ & _ & _ & _ & ->). reflexivity.
Qed.

(** C10. The call on the last line is outside the [__main__] guard and
    the assignment to [countries] is inside it.  Imported (any [__name__]
    but [__main__]), the module reaches the call, raises [NameError] for
    [countries] and leaves the world as it was: no file is written.  Run
    directly, it builds the list and performs the conversion to
    [exercises/countries.json]. *)
Theorem import_raises_name_error (name : string) (w : world) :
  name <> "__main__"%string ->
  run_module name w = (w, Raised (NameError "countries")) /\
  exists l w1,
    new_list countries w = (w1, Returned l) /\
    w_lists w1 l = countries /\
    run_module "__main__" w
      = convert_list_to_json l (Some "exercises/countries.json"%string) w1.
Proof.
  intros Hname. split.
  - unfold run_module, bind. rewrite decide_False by assumption. reflexivity.
  - exists (w_next w). eexists. split; [reflexivity|]. split.
    + cbn [w_lists]. rewrite decide_True by reflexivity. reflexivity.
    + unfold run_module. rewrite decide_True by reflexivity.
      unfold bind at 1 2. unfold new_list at 1. unfold ret at 1.
      unfold bind at 1. unfold load_name. rewrite lookup_insert_eq. unfold ret at 1.
      apply convert_then_none.
Qed.

Lemma import_raises_name_error_witness :
  "convert_list_to_json"%string <> "__main__"%string /\
  run_module "convert_list_to_json" (demo_world [])
    = (demo_world [], Raised (NameError "countries")) /\
  exists l w1,
    new_list countries (demo_world []) = (w1, Returned l) /\
    w_lists w1 l = countries /\
    run_module "__main__" (demo_world [])
      = convert_list_to_json l (Some "exercises/countries.json"%string) w1.
Proof.
  assert ("convert_list_to_json"%string <> "__main__"%string) as Hname by discriminate.
  split; [exact Hname|].
  exact (import_raises_name_error "convert_list_to_json" (demo_world []) Hname).
Defined.

(** *** Outside the text values *)

(** X1. A string with a lone surrogate is not a text value: the file is
    opened, hence created or emptied, before the encoder refuses the
    string, and the call raises [UnicodeEncodeError]. *)
Lemma lone_surrogate_call (w : world) (lst : loc) (dest : string) (s : text) (c : Z) :
  writable w dest = true ->
  In s (w_lists w lst) -> In c s -> is_surrogate c = true ->
  exists w',
    convert_list_to_json lst (Some dest) w = (w', Raised UnicodeEncodeError) /\
    w_files w' !! dest = Some [].
Proof.
  intros Hw Hs Hc Hsur. eexists. split.
  - apply convert_encode_error; [assumption|].
    assert (In c (Json.dumps (w_lists w lst))) as Hin.
    { unfold Json.dumps, Json.iterencode_list.
      destruct (w_lists w lst) as [|v vs] eqn:E; [destruct Hs|].
      apply in_or_app. left. clear E.
      generalize [LBRACKET]. revert Hs.
      generalize (v :: vs). intros l. induction l as [|x l IH]; intros Hs buf; [destruct Hs|].
      cbn [Json.iterencode_items]. apply in_or_app. right. apply in_or_app.
      destruct Hs as [->|Hs]; [left|right; apply IH; assumption].
      unfold Json.encode_basestring. right. apply in_or_app. left.
      apply in_flat_map. exists c. split; [assumption|].
      unfold is_surrogate in Hsur. zbool.
      unfold Json.escape_char.
      repeat match goal with
      | |- context [if ?b then _ else _] =>
          let E := fresh "E" in
          destruct b eqn:E;
            [exfalso; zbool; unfold BACKSLASH, QUOTE in *; lia | clear E]
      end.
      left. reflexivity. }
    exact (utf8_encode_surrogate _ c Hin Hsur).
  - cbn [w_files]. apply lookup_insert_eq.
Qed.

(** The whole list of the script is made of text values, and a direct run
    in a world where [exercises] exists writes the 3866 bytes of its
    array, which read back as the list. *)
Example countries_run :
  all_text countries = true /\
  length countries = 250%nat /\
  let w := World {[ ""%string; "exercises"%string ]} ∅ (fun _ => []) 0%nat [] in
  snd (run_module "__main__" w) = Returned PyNone /\
  length <$> (w_files (fst (run_module "__main__" w)) !! "exercises/countries.json"%string)
    = Some 3866%nat /\
  read_json (fst (run_module "__main__" w)) "exercises/countries.json" = Some countries.
Proof. vm_compute. repeat split. Qed.

(** ** Further properties of the call *)

Section Surrogates.

Import Json.

Lemma encode_char_none c : utf8_encode_char c = None <-> is_surrogate c = true.
Proof.
  unfold utf8_encode_char, is_surrogate. split.
  - repeat match goal with
    | |- context [if ?b then _ else _] => destruct b eqn:?
    end; try discriminate; reflexivity.
  - intros H. zbool. test_false. test_false. test_true.
    replace ((0xD800 <=? c) && (c <=? 0xDFFF)) with true; [reflexivity|].
    symmetry. apply andb_true_intro. split; apply Z.leb_le; lia.
Qed.

Lemma encode_none s : utf8_encode s = None <-> existsb is_surrogate s = true.
Proof.
  induction s as [|c s IH]; cbn [utf8_encode existsb]; [split; discriminate|].
  rewrite orb_true_iff, <- IH, <- encode_char_none.
  destruct (utf8_encode_char c), (utf8_encode s); split; intros H;
    try discriminate; try (destruct H; discriminate); auto.
Qed.

Lemma existsb_surrogate_app s t :
  existsb is_surrogate (s ++ t) = existsb is_surrogate s || existsb is_surrogate t.
Proof. apply existsb_app. Qed.

Lemma hex_digit_not_surrogate x : is_surrogate (hex_digit (Z.land x 0xF)) = false.
Proof.
  pose proof (land_15 x) as H. unfold hex_digit, is_surrogate.
  destruct (Z.land x 0xF <? 10); apply andb_false_iff; left; apply Z.leb_gt; lia.
Qed.

Lemma escape_char_surrogate c :
  existsb is_surrogate (escape_char c) = is_surrogate c.
Proof.
  unfold escape_char.
  repeat match goal with
  | |- context [if ?b then _ else _] =>
      let E := fresh "E" in
      destruct b eqn:E;
        [zbool; subst; try reflexivity |]
  end.
  - cbn [existsb hex4]. rewrite !hex_digit_not_surrogate.
    change (is_surrogate BACKSLASH) with false. change (is_surrogate LETTER_u) with false.
    cbn [orb]. symmetry. unfold is_surrogate. apply andb_false_iff. left.
    apply Z.leb_gt. lia.
  - cbn [existsb]. apply orb_false_r.
Qed.

Lemma encode_basestring_surrogate s :
  existsb is_surrogate (encode_basestring s) = existsb is_surrogate s.
Proof.
  unfold encode_basestring.
  change (QUOTE :: flat_map escape_char s ++ [QUOTE])
    with ([QUOTE] ++ flat_map escape_char s ++ [QUOTE]).
  rewrite !existsb_surrogate_app.
  change (existsb is_surrogate [QUOTE]) with false. rewrite orb_false_r. cbn [orb].
  induction s as [|c s IH]; [reflexivity|].
  cbn [flat_map existsb]. rewrite existsb_surrogate_app, escape_char_surrogate, IH.
  reflexivity.
Qed.

Lemma iterencode_items_surrogate buf lst :
  existsb is_surrogate buf = false ->
  existsb is_surrogate (iterencode_items buf lst) = has_surrogate lst.
Proof.
  revert buf. induction lst as [|v lst IH]; intros buf Hb; [reflexivity|].
  cbn [iterencode_items]. unfold has_surrogate. cbn [existsb].
  rewrite !existsb_surrogate_app, Hb, encode_basestring_surrogate.
  rewrite (IH item_separator eq_refl). reflexivity.
Qed.

Lemma dumps_surrogate lst :
  existsb is_surrogate (dumps lst) = has_surrogate lst.
Proof.
  unfold dumps, iterencode_list. destruct lst as [|v lst]; [reflexivity|].
  rewrite existsb_surrogate_app, (iterencode_items_surrogate [LBRACKET]) by reflexivity.
  change (existsb is_surrogate [RBRACKET]) with false. apply orb_false_r.
Qed.

(** The text of the array can be encoded exactly when no element holds a
    surrogate. *)
Lemma dumps_encode_none lst :
  utf8_encode (dumps lst) = None <-> has_surrogate lst = true.
Proof. rewrite encode_none, dumps_surrogate. reflexivity. Qed.

End Surrogates.

(** A list with a lone surrogate, written over an existing file. *)
Lemma lone_surrogate_call_witness :
  (writable (old_file_world surrogate_items) "out.json" = true /\
   In [0xD83D] (w_lists (old_file_world surrogate_items) 0%nat) /\
   In 0xD83D [0xD83D] /\
   is_surrogate 0xD83D = true) /\
  exists w',
    convert_list_to_json 0%nat (Some "out.json"%string) (old_file_world surrogate_items)
      = (w', Raised UnicodeEncodeError) /\
    w_files w' !! "out.json"%string = Some [].
Proof.
  assert (writable (old_file_world surrogate_items) "out.json" = true) as Hw
    by (vm_compute; reflexivity).
  assert (In [0xD83D] (w_lists (old_file_world surrogate_items) 0%nat)) as Hs
    by (right; left; reflexivity).
  assert (In 0xD83D [0xD83D]) as Hc by (left; reflexivity).
  assert (is_surrogate 0xD83D = true) as Hsur by reflexivity.
  split; [repeat split; assumption|].
  exact (lone_surrogate_call (old_file_world surrogate_items) 0%nat "out.json"
           [0xD83D] 0xD83D Hw Hs Hc Hsur).
Defined.



(** X3. On a destination that [open] accepts, the call returns exactly
    when no element of the list holds a surrogate code point. *)
Theorem returns_iff_no_surrogate (w : world) (lst : loc) (dest : string) :
  writable w dest = true ->
  ((exists w', convert_list_to_json lst (Some dest) w = (w', Returned PyNone)) <->
   has_surrogate (w_lists w lst) = false).
Proof.
  intros Hw. split.
  - intros (w' & H).
    destruct (convert_returned lst dest w w' PyNone H) as (data & _ & He & _).
    destruct (has_surrogate (w_lists w lst)) eqn:Hs; [|reflexivity].
    apply dumps_encode_none in Hs. congruence.
  - intros Hs.
    destruct (utf8_encode (Json.dumps (w_lists w lst))) as [data|] eqn:He.
    + exists (written w dest data). apply convert_success; assumption.
    + apply dumps_encode_none in He. congruence.
Qed.

Lemma returns_iff_no_surrogate_witness :
  writable (old_file_world surrogate_items) "out.json" = true /\
  ((exists w', convert_list_to_json 0%nat (Some "out.json"%string)
                 (old_file_world surrogate_items) = (w', Returned PyNone)) <->
   has_surrogate (w_lists (old_file_world surrogate_items) 0%nat) = false).
Proof.
  assert (writable (old_file_world surrogate_items) "out.json" = true) as Hw
    by (vm_compute; reflexivity).
  split; [exact Hw|].
  exact (returns_iff_no_surrogate (old_file_world surrogate_items) 0%nat "out.json" Hw).
Defined.

(** X4. A call repeated on the same list and destination leaves the files
    as the first call did. *)
Theorem repeated_call_same_files
    (w : world) (lst : loc) (dest : string) (w1 : world) (v : pyvalue) :
  convert_list_to_json lst (Some dest) w = (w1, Returned v) ->
  exists w2,
    convert_list_to_json lst (Some dest) w1 = (w2, Returned PyNone) /\
    w_files w2 = w_files w1.
Proof.
  intros H. destruct (convert_returned lst dest w w1 v H) as (data & Hw & He & -> & _).
  exists (written (written w dest data) dest data). split.
  - apply convert_success; [|exact He].
    rewrite (writable_same_dirs w (written w dest data) dest eq_refl). exact Hw.
  - unfold written. cbn [w_files]. apply insert_insert_eq.
Qed.

Lemma repeated_call_same_files_witness :
  convert_list_to_json 0%nat (Some "out.json"%string) (demo_world two_items)
    = (two_items_written, Returned PyNone) /\
  exists w2,
    convert_list_to_json 0%nat (Some "out.json"%string) two_items_written
      = (w2, Returned PyNone) /\
    w_files w2 = w_files two_items_written.
Proof.
  assert (convert_list_to_json 0%nat (Some "out.json"%string) (demo_world two_items)
            = (two_items_written, Returned PyNone)) as H
    by (vm_compute; reflexivity).
  split; [exact H|].
  exact (repeated_call_same_files (demo_world two_items) 0%nat "out.json"
           two_items_written PyNone H).
Defined.



(** *** The bytes that reach the file *)

Section FileBytes.

Import Json.

Lemma char_output_ascii_range c :
  0 <= c < 128 -> forallb printable_byte (char_output c) = true.
Proof.
  intros H.
  assert (forallb (fun c => forallb printable_byte (char_output c))
            (map Z.of_nat (seq 0 128)) = true) as Hall by (vm_compute; reflexivity).
  exact (forall_below (fun c => forallb printable_byte (char_output c)) 128 Hall c H).
Qed.

Lemma char_output_range c :
  is_scalar c = true -> Forall (fun b => 0x20 <= b < 0x100) (char_output c).
Proof.
  intros Hs. destruct (Z.lt_ge_cases c 0x80) as [Hlt|Hge].
  - assert (0 <= c < 128) as Hc by (unfold is_scalar in Hs; zbool; lia).
    pose proof (char_output_ascii_range c Hc) as H.
    rewrite forallb_forall in H. apply List.Forall_forall. intros b Hb.
    specialize (H b Hb). unfold printable_byte in H. zbool. lia.
  - destruct (char_output_non_ascii c Hs Hge) as (_ & _ & H).
    eapply Forall_impl; [exact H|]. cbv beta. intros b Hb. lia.
Qed.

Lemma item_output_range s :
  is_text s = true -> Forall (fun b => 0x20 <= b < 0x100) (item_output s).
Proof.
  intros Hs. unfold item_output. apply Forall_app. split; [|apply Forall_app; split].
  - repeat constructor; unfold QUOTE; lia.
  - induction s as [|c s IH]; [constructor|].
    cbn [is_text forallb] in Hs. apply andb_true_iff in Hs as [Hc Hs].
    cbn [flat_map]. apply Forall_app. split; [apply char_output_range; exact Hc|].
    apply IH. exact Hs.
  - repeat constructor; unfold QUOTE; lia.
Qed.

Lemma join_range items :
  all_text items = true ->
  Forall (fun b => 0x20 <= b < 0x100) (join [COMMA; SPACE] (map item_output items)).
Proof.
  induction items as [|v items IH]; intros Ht; [constructor|].
  cbn [all_text forallb] in Ht. apply andb_true_iff in Ht as [Hv Ht].
  destruct items as [|v' items]; [apply item_output_range; exact Hv|].
  change (join [COMMA; SPACE] (map item_output (v :: v' :: items)))
    with (item_output v ++ [COMMA; SPACE]
            ++ join [COMMA; SPACE] (map item_output (v' :: items))).
  apply Forall_app. split; [apply item_output_range; exact Hv|].
  apply Forall_app. split; [repeat constructor; unfold COMMA, SPACE; lia|].
  apply IH. exact Ht.
Qed.

Lemma dumps_bytes_range items data :
  all_text items = true ->
  utf8_encode (dumps items) = Some data ->
  Forall (fun b => 0x20 <= b < 0x100) data.
Proof.
  intros Ht He. rewrite (dumps_bytes items Ht) in He. injection He as <-.
  constructor; [unfold LBRACKET; lia|].
  apply Forall_app. split; [apply join_range; exact Ht|].
  repeat constructor; unfold RBRACKET; lia.
Qed.

Lemma encode_basestring_ascii s :
  forallb is_ascii s = true -> forallb is_ascii (encode_basestring s) = true.
Proof.
  intros Hs. unfold encode_basestring.
  change (QUOTE :: flat_map escape_char s ++ [QUOTE])
    with ([QUOTE] ++ flat_map escape_char s ++ [QUOTE]).
  rewrite !forallb_app.
  assert (forallb is_ascii (flat_map escape_char s) = true) as ->; [|reflexivity].
  induction s as [|c s IH]; [reflexivity|].
  cbn [forallb] in Hs. apply andb_true_iff in Hs as [Hc Hs].
  cbn [flat_map]. rewrite forallb_app, escape_char_ascii, IH by assumption.
  reflexivity.
Qed.

Lemma iterencode_items_ascii buf lst :
  forallb is_ascii buf = true -> all_ascii lst = true ->
  forallb is_ascii (iterencode_items buf lst) = true.
Proof.
  revert buf. induction lst as [|v lst IH]; intros buf Hb Hl; [reflexivity|].
  cbn [all_ascii forallb] in Hl. apply andb_true_iff in Hl as [Hv Hl].
  cbn [iterencode_items]. rewrite !forallb_app, Hb, encode_basestring_ascii by assumption.
  rewrite (IH item_separator eq_refl Hl). reflexivity.
Qed.

Lemma dumps_ascii lst :
  all_ascii lst = true -> forallb is_ascii (dumps lst) = true.
Proof.
  intros Hl. unfold dumps, iterencode_list. destruct lst as [|v lst]; [reflexivity|].
  rewrite forallb_app, (iterencode_items_ascii [LBRACKET]) by (reflexivity || assumption).
  reflexivity.
Qed.

End FileBytes.

(** X6. The file of a list of text values holds no byte below 0x20: the
    characters U+0000..U+001F of the elements are escaped, so the file has
    no line break and no tab, and every byte written is in 0x20..0xFF.
    (U+007F is not escaped: the byte 0x7F can occur.) *)
Theorem file_has_no_byte_below_space
    (w : world) (lst : loc) (dest : string) (w' : world) (v : pyvalue) :
  all_text (w_lists w lst) = true ->
  convert_list_to_json lst (Some dest) w = (w', Returned v) ->
  exists data,
    w_files w' !! dest = Some data /\
    Forall (fun b => 0x20 <= b < 0x100) data.
Proof.
  intros Ht H. destruct (convert_returned lst dest w w' v H) as (data & _ & He & -> & _).
  exists data. split; [apply written_files|].
  exact (dumps_bytes_range _ data Ht He).
Qed.

Lemma file_has_no_byte_below_space_witness :
  (all_text (w_lists two_lists_world 0%nat) = true /\
   convert_list_to_json 0%nat (Some "out.json"%string) two_lists_world
     = (two_lists_world_written, Returned PyNone)) /\
  exists data,
    w_files two_lists_world_written !! "out.json"%string = Some data /\
    Forall (fun b => 0x20 <= b < 0x100) data.
Proof.
  assert (all_text (w_lists two_lists_world 0%nat) = true) as Ht
    by (vm_compute; reflexivity).
  assert (convert_list_to_json 0%nat (Some "out.json"%string) two_lists_world
            = (two_lists_world_written, Returned PyNone)) as H
    by (vm_compute; reflexivity).
  split; [split; assumption|].
  exact (file_has_no_byte_below_space two_lists_world 0%nat "out.json"
           two_lists_world_written PyNone Ht H).
Defined.

(** The character U+007F is written as it is. *)
Example delete_is_written_raw :
  utf8_encode (Json.dumps [[0x7F]]) = Some [0x5B; 0x22; 0x7F; 0x22; 0x5D].
Proof. reflexivity. Qed.

(** X7. The file tells the list: two returning calls on lists of text
    values that leave the same bytes at their destinations were given
    equal lists. *)
Theorem same_file_same_list
    (wa wb : world) (la lb : loc) (pa pb : string)
    (wa' wb' : world) (va vb : pyvalue) :
  all_text (w_lists wa la) = true ->
  all_text (w_lists wb lb) = true ->
  convert_list_to_json la (Some pa) wa = (wa', Returned va) ->
  convert_list_to_json lb (Some pb) wb = (wb', Returned vb) ->
  w_files wa' !! pa = w_files wb' !! pb ->
  w_lists wa la = w_lists wb lb.
Proof.
  intros Hta Htb Ha Hb Hsame.
  destruct (convert_returned la pa wa wa' va Ha) as (da & _ & Hea & -> & _).
  destruct (convert_returned lb pb wb wb' vb Hb) as (db & _ & Heb & -> & _).
  rewrite !written_files in Hsame. injection Hsame as ->.
  destruct (dumps_encoded _ Hta) as (da' & Hea' & _ & Hda).
  destruct (dumps_encoded _ Htb) as (db' & Heb' & _ & Hdb).
  assert (da' = db) as -> by congruence.
  assert (db' = db) as -> by congruence.
  assert (Json.dumps (w_lists wa la) = Json.dumps (w_lists wb lb)) as E by congruence.
  apply (f_equal Json.loads) in E. rewrite !loads_dumps in E. congruence.
Qed.

Lemma same_file_same_list_witness :
  (all_text (w_lists (demo_world two_items) 0%nat) = true /\
   all_text (w_lists two_lists_world 1%nat) = true /\
   convert_list_to_json 0%nat (Some "out.json"%string) (demo_world two_items)
     = (two_items_written, Returned PyNone) /\
   convert_list_to_json 1%nat (Some "b.json"%string) two_lists_world
     = (written two_lists_world "b.json"
          [0x5B; 0x22; 0x41; 0x22; 0x2C; 0x20; 0x22; 0xC3; 0x85; 0x22; 0x5D],
        Returned PyNone) /\
   w_files two_items_written !! "out.json"%string
     = w_files (written two_lists_world "b.json"
          [0x5B; 0x22; 0x41; 0x22; 0x2C; 0x20; 0x22; 0xC3; 0x85; 0x22; 0x5D])
         !! "b.json"%string) /\
  w_lists (demo_world two_items) 0%nat = w_lists two_lists_world 1%nat.
Proof.
  assert (all_text (w_lists (demo_world two_items) 0%nat) = true) as Hta
    by (vm_compute; reflexivity).
  assert (all_text (w_lists two_lists_world 1%nat) = true) as Htb
    by (vm_compute; reflexivity).
  assert (convert_list_to_json 0%nat (Some "out.json"%string) (demo_world two_items)
            = (two_items_written, Returned PyNone)) as Ha
    by (vm_compute; reflexivity).
  assert (convert_list_to_json 1%nat (Some "b.json"%string) two_lists_world
            = (written two_lists_world "b.json"
                 [0x5B; 0x22; 0x41; 0x22; 0x2C; 0x20; 0x22; 0xC3; 0x85; 0x22; 0x5D],
               Returned PyNone)) as Hb
    by (vm_compute; reflexivity).
  assert (w_files two_items_written !! "out.json"%string
          = w_files (written two_lists_world "b.json"
               [0x5B; 0x22; 0x41; 0x22; 0x2C; 0x20; 0x22; 0xC3; 0x85; 0x22; 0x5D])
              !! "b.json"%string) as Hsame
    by (vm_compute; reflexivity).
  split; [repeat split; assumption|].
  exact (same_file_same_list (demo_world two_items) two_lists_world 0%nat 1%nat
           "out.json" "b.json" _ _ PyNone PyNone Hta Htb Ha Hb Hsame).
Defined.

(** X11. When every character of every element is ASCII, the file holds
    the characters of the JSON text themselves, one byte each, all
    ASCII. *)
Theorem ascii_items_ascii_file (w : world) (lst : loc) (dest : string) :
  all_ascii (w_lists w lst) = true ->
  writable w dest = true ->
  exists w',
    convert_list_to_json lst (Some dest) w = (w', Returned PyNone) /\
    w_files w' !! dest = Some (Json.dumps (w_lists w lst)) /\
    forallb is_ascii (Json.dumps (w_lists w lst)) = true.
Proof.
  intros Ha Hw. pose proof (dumps_ascii _ Ha) as Hd.
  exists (written w dest (Json.dumps (w_lists w lst))). split; [|split].
  - apply convert_success; [exact Hw|]. apply utf8_encode_ascii. exact Hd.
  - apply written_files.
  - exact Hd.
Qed.

Lemma ascii_items_ascii_file_witness :
  (all_ascii (w_lists (demo_world afghanistan_albania) 0%nat) = true /\
   writable (demo_world afghanistan_albania) "out.json" = true) /\
  exists w',
    convert_list_to_json 0%nat (Some "out.json"%string) (demo_world afghanistan_albania)
      = (w', Returned PyNone) /\
    w_files w' !! "out.json"%string
      = Some (Json.dumps (w_lists (demo_world afghanistan_albania) 0%nat)) /\
    forallb is_ascii (Json.dumps (w_lists (demo_world afghanistan_albania) 0%nat)) = true.
Proof.
  assert (all_ascii (w_lists (demo_world afghanistan_albania) 0%nat) = true) as Ha
    by (vm_compute; reflexivity).
  assert (writable (demo_world afghanistan_albania) "out.json" = true) as Hw
    by (vm_compute; reflexivity).
  split; [split; assumption|].
  exact (ascii_items_ascii_file (demo_world afghanistan_albania) 0%nat "out.json" Ha Hw).
Defined.

(** *** Whatever the outcome *)

(** The four ways a call can end. *)
Lemma convert_outcomes (w : world) (lst : loc) (dest : string) :
  (exists data,
     writable w dest = true /\
     convert_list_to_json lst (Some dest) w = (written w dest data, Returned PyNone)) \/
  (writable w dest = true /\
   convert_list_to_json lst (Some dest) w =
     (World (w_dirs w) (<[dest := []]> (w_files w)) (w_lists w) (w_next w)
        (w_trace w ++ [EvOpen dest; EvClose dest]),
      Raised UnicodeEncodeError)) \/
  (writable w dest = false /\
   exists e, convert_list_to_json lst (Some dest) w = (w, Raised e)).
Proof.
  destruct (resolve w dest) as [e|] eqn:Hr.
  - right. right. split; [unfold writable; rewrite Hr; reflexivity|].
    exists e. apply convert_open_error. exact Hr.
  - apply writable_resolve in Hr.
    destruct (utf8_encode (Json.dumps (w_lists w lst))) as [data|] eqn:He.
    + left. exists data. split; [exact Hr|]. apply convert_success; assumption.
    + right. left. split; [exact Hr|]. apply convert_encode_error; assumption.
Qed.



(** X12. A file that was opened is closed when the call ends, also when
    the encoder raises: the effects of the call begin with the open of the
    destination and end with its close. *)
Theorem opened_file_is_closed
    (w : world) (lst : loc) (dest : string) (w' : world) (r : outcome pyvalue) :
  writable w dest = true ->
  convert_list_to_json lst (Some dest) w = (w', r) ->
  exists mid,
    w_trace w' = w_trace w ++ EvOpen dest :: mid ++ [EvClose dest] /\
    Forall (fun e => event_path e = Some dest) mid.
Proof.
  intros Hw H.
  destruct (convert_outcomes w lst dest) as [(data & _ & E)|[[_ E]|[Hn _]]].
  - rewrite E in H. injection H as <- <-. exists [EvWrite dest data].
    split; [reflexivity|]. repeat constructor.
  - rewrite E in H. injection H as <- <-. exists []. split; [reflexivity|constructor].
  - congruence.
Qed.

Lemma opened_file_is_closed_witness :
  (writable (old_file_world surrogate_items) "out.json" = true /\
   convert_list_to_json 0%nat (Some "out.json"%string) (old_file_world surrogate_items)
     = (old_file_world_emptied surrogate_items, Raised UnicodeEncodeError)) /\
  exists mid,
    w_trace (old_file_world_emptied surrogate_items)
      = w_trace (old_file_world surrogate_items)
          ++ EvOpen "out.json" :: mid ++ [EvClose "out.json"] /\
    Forall (fun e => event_path e = Some "out.json"%string) mid.
Proof.
  assert (writable (old_file_world surrogate_items) "out.json" = true) as Hw
    by (vm_compute; reflexivity).
  assert (convert_list_to_json 0%nat (Some "out.json"%string)
            (old_file_world surrogate_items)
          = (old_file_world_emptied surrogate_items, Raised UnicodeEncodeError)) as H
    by (vm_compute; reflexivity).
  split; [split; assumption|].
  exact (opened_file_is_closed (old_file_world surrogate_items) 0%nat "out.json"
           (old_file_world_emptied surrogate_items) (Raised UnicodeEncodeError) Hw H).
Defined.

(** *** The script run directly *)

(** Run directly, the module body is the call on a new list that holds
    the country names. *)
Lemma direct_run_call (w : world) :
  run_module "__main__" w
    = convert_list_to_json (w_next w) (Some "exercises/countries.json"%string)
        (fst (new_list countries w)).
Proof.
  unfold run_module. rewrite decide_True by reflexivity.
  unfold bind at 1 2. unfold new_list at 1. unfold ret at 1.
  unfold bind at 1. unfold load_name. rewrite lookup_insert_eq. unfold ret at 1.
  apply convert_then_none.
Qed.

Lemma new_list_countries (w : world) :
  w_dirs (fst (new_list countries w)) = w_dirs w /\
  w_files (fst (new_list countries w)) = w_files w /\
  w_trace (fst (new_list countries w)) = w_trace w /\
  w_lists (fst (new_list countries w)) (w_next w) = countries.
Proof.
  unfold new_list. cbn [fst w_dirs w_files w_trace w_lists].
  rewrite decide_True by reflexivity. repeat split.
Qed.

(** The destination of the script when [exercises] is not a directory. *)
Lemma resolve_exercises (w : world) :
  "exercises"%string ∉ w_dirs w ->
  resolve w "exercises/countries.json" =
    Some (if bool_decide ("exercises"%string ∈ dom (w_files w))
          then NotADirectoryError "exercises/countries.json"
          else FileNotFoundError "exercises/countries.json").
Proof.
  intros Hd. unfold resolve.
  change (has_nul "exercises/countries.json") with false.
  change (String.eqb "exercises/countries.json" "") with false.
  change (PATH_MAX <=? String.length "exercises/countries.json")%nat with false.
  change (is_absolute "exercises/countries.json") with false.
  change (ends_with_slash "exercises/countries.json") with false.
  change (names "exercises/countries.json")
    with ["exercises"%string; "countries.json"%string].
  cbv iota. cbn [walk].
  change (String.eqb "exercises" ".") with false.
  change (String.eqb "exercises" "..") with false.
  change (NAME_MAX <? String.length "exercises")%nat with false.
  change (key_of false ["exercises"%string]) with "exercises"%string.
  cbv iota. rewrite bool_decide_eq_false_2 by assumption.
  destruct (bool_decide ("exercises"%string ∈ dom (w_files w))); reflexivity.
Qed.

(** X9. Run directly where [exercises] is not a directory, the script
    raises [FileNotFoundError], or [NotADirectoryError] when [exercises]
    is a regular file, and leaves the file system and the effects as they
    were. *)
Theorem direct_run_without_directory (w : world) :
  "exercises"%string ∉ w_dirs w ->
  exists w1,
    run_module "__main__" w
      = (w1, Raised (if bool_decide ("exercises"%string ∈ dom (w_files w))
                     then NotADirectoryError "exercises/countries.json"
                     else FileNotFoundError "exercises/countries.json")) /\
    w_files w1 = w_files w /\ w_dirs w1 = w_dirs w /\ w_trace w1 = w_trace w.
Proof.
  intros Hd. destruct (new_list_countries w) as (Ed & Ef & Et & _).
  exists (fst (new_list countries w)). split; [|auto].
  rewrite direct_run_call. apply convert_open_error.
  rewrite resolve_exercises by (rewrite Ed; exact Hd).
  rewrite Ef. reflexivity.
Qed.

Lemma direct_run_without_directory_witness :
  ("exercises"%string ∉ w_dirs exercises_file_world) /\
  (exists w1,
    run_module "__main__" exercises_file_world
      = (w1, Raised (if bool_decide ("exercises"%string ∈ dom (w_files exercises_file_world))
                     then NotADirectoryError "exercises/countries.json"
                     else FileNotFoundError "exercises/countries.json")) /\
    w_files w1 = w_files exercises_file_world /\
    w_dirs w1 = w_dirs exercises_file_world /\
    w_trace w1 = w_trace exercises_file_world) /\
  snd (run_module "__main__" exercises_file_world)
    = Raised (NotADirectoryError "exercises/countries.json") /\
  snd (run_module "__main__" (demo_world []))
    = Raised (FileNotFoundError "exercises/countries.json").
Proof.
  assert ("exercises"%string ∉ w_dirs exercises_file_world) as Hd
    by (apply (bool_decide_eq_false_1 ("exercises"%string ∈ w_dirs exercises_file_world));
        vm_compute; reflexivity).
  split; [exact Hd|]. split; [|split].
  - exact (direct_run_without_directory exercises_file_world Hd).
  - vm_compute. reflexivity.
  - vm_compute. reflexivity.
Defined.

(** X10. Run directly where [exercises/countries.json] can be opened, the
    script returns and leaves there the 3866 bytes of the array of the 250
    country names, which read back as the list. *)
Theorem direct_run_writes_countries (w : world) :
  writable w "exercises/countries.json" = true ->
  exists w1 data,
    run_module "__main__" w = (w1, Returned PyNone) /\
    w_files w1 !! "exercises/countries.json"%string = Some data /\
    length data = 3866%nat /\
    read_json w1 "exercises/countries.json" = Some countries /\
    length countries = 250%nat.
Proof.
  intros Hw. destruct (new_list_countries w) as (Ed & _ & _ & El).
  assert (all_text countries = true) as Ht by (vm_compute; reflexivity).
  destruct (dumps_encoded countries Ht) as (data & He & _ & Hdec).
  assert (length <$> utf8_encode (Json.dumps countries) = Some 3866%nat) as Hlen
    by (vm_compute; reflexivity).
  rewrite He in Hlen. injection Hlen as Hlen.
  exists (written (fst (new_list countries w)) "exercises/countries.json" data), data.
  split; [|split; [|split; [|split]]].
  - rewrite direct_run_call. apply convert_success.
    + rewrite (writable_same_dirs w _ _ Ed). exact Hw.
    + rewrite El. exact He.
  - apply written_files.
  - exact Hlen.
  - apply written_read_json. exact Hdec.
  - reflexivity.
Qed.

Lemma direct_run_writes_countries_witness :
  writable exercises_world "exercises/countries.json" = true /\
  exists w1 data,
    run_module "__main__" exercises_world = (w1, Returned PyNone) /\
    w_files w1 !! "exercises/countries.json"%string = Some data /\
    length data = 3866%nat /\
    read_json w1 "exercises/countries.json" = Some countries /\
    length countries = 250%nat.
Proof.
  assert (writable exercises_world "exercises/countries.json" = true) as Hw
    by (vm_compute; reflexivity).
  split; [exact Hw|].
  exact (direct_run_writes_countries exercises_world Hw).
Defined.

(** *** The two steps of the expression written to the file *)

(** X13. [json.dumps(lst, ensure_ascii=False)] changes nothing and gives
    a text that [json.loads] reads back as the list, for every list of
    strings, those that cannot be encoded included. *)
Theorem dumps_loads_every_list (w : world) (lst : loc) :
  exists s,
    json_dumps lst w = (w, Returned s) /\
    Json.loads s = Some (w_lists w lst).
Proof.
  exists (Json.dumps (w_lists w lst)). split; [reflexivity|apply loads_dumps].
Qed.

(** X14. [s.encode('utf8')] raises [UnicodeEncodeError] exactly when [s]
    holds a surrogate, and then changes nothing. *)
Theorem encode_raises_iff_surrogate (s : text) (w : world) :
  str_encode_utf8 s w = (w, Raised UnicodeEncodeError)
    <-> existsb is_surrogate s = true.
Proof.
  rewrite <- encode_none. unfold str_encode_utf8.
  destruct (utf8_encode s) as [data|]; split; intros H;
    try discriminate; reflexivity.
Qed.

(** X15. [s.encode('utf8')] on a text value gives bytes, each in
    0..255, that decode back to [s]. *)
Theorem encode_decodes_back (s : text) (w : world) :
  is_text s = true ->
  exists data,
    str_encode_utf8 s w = (w, Returned data) /\
    Forall (fun b => is_byte b = true) data /\
    utf8_decode data = Some s.
Proof.
  intros Ht. destruct (utf8_roundtrip s Ht) as (data & He & Hb & Hd).
  exists data. unfold str_encode_utf8. rewrite He. auto.
Qed.

Lemma encode_decodes_back_witness :
  is_text [0x41; 0xC5; 0x20AC; 0x1F600] = true /\
  exists data,
    str_encode_utf8 [0x41; 0xC5; 0x20AC; 0x1F600] (demo_world [])
      = (demo_world [], Returned data) /\
    Forall (fun b => is_byte b = true) data /\
    utf8_decode data = Some [0x41; 0xC5; 0x20AC; 0x1F600].
Proof.
  assert (is_text [0x41; 0xC5; 0x20AC; 0x1F600] = true) as Ht by reflexivity.
  split; [exact Ht|].
  exact (encode_decodes_back [0x41; 0xC5; 0x20AC; 0x1F600] (demo_world []) Ht).
Defined.
